(** * twist-tac-toe: the Game model (src/gameObjects/models/game.js)

    A shallow embedding of the [Game] class and the properties of its
    configuration gate, its move and outcome resolution and its game
    life cycle.

    The class mutates [this]; here every method is a function from the
    state before the call to the value returned and the state after it.
    [Board], [Player] and the line detector live in other modules of the
    repository; the class only talks to them through a handful of methods,
    which are the interfaces [BoardOps], [PlayerOps] and [LineDetector]
    below.  What the proofs assume about them is stated, law by law, as
    section hypotheses. *)

From Stdlib Require Import ZArith QArith List String Bool Lia.
Import ListNotations.
Local Open Scope Z_scope.

(** ** Enumerations (enums/role.js, enums/gameState.js, enums/gameProp.js) *)

Module Role.
Inductive t : Set := NONE | P1 | P2.

Definition eqb (a b : t) : bool :=
  match a, b with
  | NONE, NONE | P1, P1 | P2, P2 => true
  | _, _ => false
  end.
End Role.

Module GameState.
Inductive t : Set := READY | PREPARING | ONGOING | FINISHED.

Definition eqb (a b : t) : bool :=
  match a, b with
  | READY, READY | PREPARING, PREPARING
  | ONGOING, ONGOING | FINISHED, FINISHED => true
  | _, _ => false
  end.
End GameState.

Module GameProp.
Inductive t : Set :=
  SIZE | WIN_LENGTH | IS_LIMITED_PIECES | NUM_PIECES | IS_FIFO_ORDER.
End GameProp.

(** The first argument of [updateGameConfig] is an arbitrary JavaScript
    value: either one of the five members of [GameProp] or something that
    is none of them, which the [switch] sends to its [default] branch. *)
Inductive Selector : Type :=
| Sel (p : GameProp.t)
| NotAProp (s : string).

(** The argument bag of [updateGameConfig]; each setter reads its own keys
    ([arg['x']], [arg['len']], ...).  Sizes, lengths and counts are
    integers, the flags booleans. *)
Record Arg : Type := mkArg {
  arg_x : Z;
  arg_y : Z;
  arg_len : Z;
  arg_isLimited : bool;
  arg_num : Z;
  arg_isFifo : bool
}.

(** A board coordinate, the object [{x, y}] of the source. *)
Definition Coord : Type := (Z * Z)%type.

(** The object [{x, y}] that [Board.getSize()] returns. *)
Module Size.
Record t : Type := mk { x : Z; y : Z }.
End Size.

(** ** The collaborators, by interface *)

(** board.js: the methods and the field [cells] that game.js uses.  A
    mutating method returns the board after the call. *)
Class BoardOps (Board Cells : Type) : Type := {
  newBoard : Z -> Z -> Board;
  getSize : Board -> Size.t;
  cells : Board -> Cells;
  updateSize : Z -> Z -> Board -> Board;
  resetBoard : Board -> Board;
  placeMark : Z -> Z -> Role.t -> Board -> bool * Board;
  hasPlayableSquares : Board -> bool
}.

(** player.js: the constructor, the fields [role], [score] and
    [moveHistory] and the four methods that game.js uses.  Scores are
    JavaScript numbers that only ever grow by 1 and by 0.5: rationals. *)
Class PlayerOps (Player : Type) : Type := {
  newPlayer : string -> string -> Role.t -> Player;
  role : Player -> Role.t;
  score : Player -> Q;
  moveHistory : Player -> list Coord;
  updatePlayerMove : Z -> Z -> Player -> Player;
  resetPlayerMoveHistory : Player -> Player;
  addScore : Q -> Player -> Player;
  resetScore : Player -> Player
}.

(** utils/winnerCheck.js: "returns array of objects or false"; [None] is
    the [false] of the source, and every array, also the empty one, is
    truthy. *)
Class LineDetector (Cells : Type) : Type := {
  winnerCheckingSlidingWindow :
    Cells -> Role.t -> Z -> Z -> Z -> option (list Coord)
}.

(** data/GameConfig.js: the defaults of the constructor's parameters. *)
Record GameConfig : Type := mkGameConfig {
  cfg_boardSizeX : Z;
  cfg_boardSizeY : Z;
  cfg_winLength : Z;
  cfg_numPieces : Z;
  cfg_isFifoOrder : bool
}.

(** ** References and completions *)

(** [currentPlayer] and [firstTurnPlayer] are references to one of the two
    [Player] objects that the constructor creates, compared with [===];
    a method called through such a reference mutates the object that
    [player1] or [player2] also names. *)
Inductive PlayerRef : Set := RefPlayer1 | RefPlayer2.

Definition other_player (r : PlayerRef) : PlayerRef :=
  match r with
  | RefPlayer1 => RefPlayer2
  | RefPlayer2 => RefPlayer1
  end.

Definition PlayerRef_eqb (a b : PlayerRef) : bool :=
  match a, b with
  | RefPlayer1, RefPlayer1 | RefPlayer2, RefPlayer2 => true
  | _, _ => false
  end.

(** The field [winner] is assigned a [Role] in the constructor, in
    [readyGame] and in the draw branch, and a [Player] object in the win
    branch. *)
Inductive WinnerValue : Set :=
| RoleValue (r : Role.t)
| PlayerValue (p : PlayerRef).

Inductive JsError : Type :=
| ReferenceError (identifier : string).

(** How a call ends: with a value, or with an exception thrown. *)
Inductive Completion (A : Type) : Type :=
| Normal (a : A)
| Throw (e : JsError).
Arguments Normal {A} a.
Arguments Throw {A} e.

Section GameModel.

Context {Board Cells Player : Type}.
Context {board_ops : BoardOps Board Cells}.
Context {player_ops : PlayerOps Player}.
Context {detector : LineDetector Cells}.

(** ** The fields of a Game *)

Record Game : Type := mkGame {
  winLength : Z;
  isLimitedPieces : bool;
  numPieces : Z;
  isFifoOrder : bool;
  board : Board;
  player1 : Player;
  player2 : Player;
  currentPlayer : PlayerRef;
  winner : WinnerValue;
  winCells : list Coord;
  firstTurnPlayer : PlayerRef;
  totalGamesPlayed : Z;
  state : GameState.t
}.

(** Assignments [this.f = v]. *)
Definition set_winLength (v : Z) (g : Game) : Game :=
  mkGame v (isLimitedPieces g) (numPieces g) (isFifoOrder g) (board g)
         (player1 g) (player2 g) (currentPlayer g) (winner g) (winCells g)
         (firstTurnPlayer g) (totalGamesPlayed g) (state g).

Definition set_isLimitedPieces (v : bool) (g : Game) : Game :=
  mkGame (winLength g) v (numPieces g) (isFifoOrder g) (board g)
         (player1 g) (player2 g) (currentPlayer g) (winner g) (winCells g)
         (firstTurnPlayer g) (totalGamesPlayed g) (state g).

Definition set_numPieces (v : Z) (g : Game) : Game :=
  mkGame (winLength g) (isLimitedPieces g) v (isFifoOrder g) (board g)
         (player1 g) (player2 g) (currentPlayer g) (winner g) (winCells g)
         (firstTurnPlayer g) (totalGamesPlayed g) (state g).

Definition set_isFifoOrder (v : bool) (g : Game) : Game :=
  mkGame (winLength g) (isLimitedPieces g) (numPieces g) v (board g)
         (player1 g) (player2 g) (currentPlayer g) (winner g) (winCells g)
         (firstTurnPlayer g) (totalGamesPlayed g) (state g).

Definition set_board (v : Board) (g : Game) : Game :=
  mkGame (winLength g) (isLimitedPieces g) (numPieces g) (isFifoOrder g) v
         (player1 g) (player2 g) (currentPlayer g) (winner g) (winCells g)
         (firstTurnPlayer g) (totalGamesPlayed g) (state g).

Definition set_player1 (v : Player) (g : Game) : Game :=
  mkGame (winLength g) (isLimitedPieces g) (numPieces g) (isFifoOrder g)
         (board g) v (player2 g) (currentPlayer g) (winner g) (winCells g)
         (firstTurnPlayer g) (totalGamesPlayed g) (state g).

Definition set_player2 (v : Player) (g : Game) : Game :=
  mkGame (winLength g) (isLimitedPieces g) (numPieces g) (isFifoOrder g)
         (board g) (player1 g) v (currentPlayer g) (winner g) (winCells g)
         (firstTurnPlayer g) (totalGamesPlayed g) (state g).

Definition set_currentPlayer (v : PlayerRef) (g : Game) : Game :=
  mkGame (winLength g) (isLimitedPieces g) (numPieces g) (isFifoOrder g)
         (board g) (player1 g) (player2 g) v (winner g) (winCells g)
         (firstTurnPlayer g) (totalGamesPlayed g) (state g).

Definition set_winner (v : WinnerValue) (g : Game) : Game :=
  mkGame (winLength g) (isLimitedPieces g) (numPieces g) (isFifoOrder g)
         (board g) (player1 g) (player2 g) (currentPlayer g) v (winCells g)
         (firstTurnPlayer g) (totalGamesPlayed g) (state g).

Definition set_winCells (v : list Coord) (g : Game) : Game :=
  mkGame (winLength g) (isLimitedPieces g) (numPieces g) (isFifoOrder g)
         (board g) (player1 g) (player2 g) (currentPlayer g) (winner g) v
         (firstTurnPlayer g) (totalGamesPlayed g) (state g).

Definition set_firstTurnPlayer (v : PlayerRef) (g : Game) : Game :=
  mkGame (winLength g) (isLimitedPieces g) (numPieces g) (isFifoOrder g)
         (board g) (player1 g) (player2 g) (currentPlayer g) (winner g)
         (winCells g) v (totalGamesPlayed g) (state g).

Definition set_totalGamesPlayed (v : Z) (g : Game) : Game :=
  mkGame (winLength g) (isLimitedPieces g) (numPieces g) (isFifoOrder g)
         (board g) (player1 g) (player2 g) (currentPlayer g) (winner g)
         (winCells g) (firstTurnPlayer g) v (state g).

Definition set_state (v : GameState.t) (g : Game) : Game :=
  mkGame (winLength g) (isLimitedPieces g) (numPieces g) (isFifoOrder g)
         (board g) (player1 g) (player2 g) (currentPlayer g) (winner g)
         (winCells g) (firstTurnPlayer g) (totalGamesPlayed g) v.

(** The [Player] object behind a reference, and a method call through a
    reference: the object is updated where it is stored. *)
Definition deref (r : PlayerRef) (g : Game) : Player :=
  match r with
  | RefPlayer1 => player1 g
  | RefPlayer2 => player2 g
  end.

Definition call_on (r : PlayerRef) (method : Player -> Player) (g : Game)
  : Game :=
  match r with
  | RefPlayer1 => set_player1 (method (player1 g)) g
  | RefPlayer2 => set_player2 (method (player2 g)) g
  end.

(** ** The constructor *)

Definition constructor (boardSizeX boardSizeY winLength numPieces : Z)
           (isFifoOrder : bool) : Game :=
  {| winLength := winLength;
     isLimitedPieces := false;
     numPieces := numPieces;
     isFifoOrder := isFifoOrder;
     board := newBoard boardSizeX boardSizeY;
     player1 := newPlayer "Player 1" "X" Role.P1;
     player2 := newPlayer "Player 2" "O" Role.P2;
     currentPlayer := RefPlayer1;
     winner := RoleValue Role.NONE;
     winCells := [];
     firstTurnPlayer := RefPlayer1;
     totalGamesPlayed := 0;
     state := GameState.READY |}.

(** [new Game()]: every parameter takes its default. *)
Definition constructor_default (gameConfig : GameConfig) : Game :=
  constructor (cfg_boardSizeX gameConfig) (cfg_boardSizeY gameConfig)
              (cfg_winLength gameConfig) (cfg_numPieces gameConfig)
              (cfg_isFifoOrder gameConfig).

(** ** Getters *)

Definition getWinningLineLength (g : Game) : Z := winLength g.
Definition getIsLimitedPieces (g : Game) : bool := isLimitedPieces g.
Definition getNumPiecesEachPlayer (g : Game) : Z := numPieces g.
Definition getIsFifoOrder (g : Game) : bool := isFifoOrder g.
Definition getBoard (g : Game) : Board := board g.
Definition getPlayer1 (g : Game) : Player := player1 g.
Definition getPlayer2 (g : Game) : Player := player2 g.
Definition getCurrentPlayer (g : Game) : PlayerRef := currentPlayer g.
Definition getGameWinner (g : Game) : WinnerValue := winner g.
Definition getWinningSquaresOnBoard (g : Game) : list Coord := winCells g.
Definition getPlayerToPlayFirst (g : Game) : PlayerRef := firstTurnPlayer g.
Definition getGamesPlayedInMatch (g : Game) : Z := totalGamesPlayed g.
Definition getGameState (g : Game) : GameState.t := state g.

(** [a > b] on scores. *)
Definition score_gt (a b : Q) : bool := negb (Qle_bool a b).

Definition getMatchLeadingPlayer (g : Game) : Role.t :=
  if score_gt (score (player1 g)) (score (player2 g)) then role (player1 g)
  else if score_gt (score (player2 g)) (score (player1 g))
       then role (player2 g)
       else Role.NONE.

(** ** The configuration gate *)

Definition isDuringMatch (g : Game) : bool :=
  if negb (GameState.eqb (state g) GameState.ONGOING)
     && (totalGamesPlayed g <=? 0)
  then false
  else true.

Definition updateNumPiecesEachPlayer (num : Z) (g : Game) : Game :=
  if negb (GameState.eqb (state g) GameState.ONGOING)
  then set_numPieces num g
  else g.

(** The setters of [updateProp()], each an arrow function closed over
    [this]. *)
Definition updateProp_size (x y : Z) (g : Game) : bool * Game :=
  let g := set_board (updateSize x y (board g)) g in
  let g :=
    if (x <? winLength g) || (y <? winLength g)
    then
      let newWinLength := if x <? y then x else y in
      set_winLength newWinLength g
    else g in
  (true, g).

Definition updateProp_winLength (len : Z) (g : Game) : bool * Game :=
  if (Size.x (getSize (getBoard g)) >=? len)
     || (Size.y (getSize (getBoard g)) >=? len)
  then (true, set_winLength len g)
  else (false, g).

Definition updateProp_isLimitedPieces (isLimited : bool) (g : Game)
  : bool * Game :=
  (true, set_isLimitedPieces isLimited g).

Definition updateProp_isFifoOrder (isFifo : bool) (g : Game)
  : bool * Game :=
  (true, set_isFifoOrder isFifo g).

(** The [numPieces] setter does not call [this.updateNumPiecesEachPlayer]
    but [game.updateNumPiecesEachPlayer]: [game] is an identifier that
    game.js neither declares nor imports, so it is looked up in the
    global scope of the program that loads the module. *)
Inductive GlobalBinding : Type :=
| Undeclared
| SameGame
| OtherGame (g : Game).

(** What a call can see and change: its receiver and the global [game]. *)
Record World : Type := mkWorld {
  this : Game;
  global_game : GlobalBinding
}.

Definition with_this (g : Game) (w : World) : World :=
  mkWorld g (global_game w).

Definition updateProp_numPieces (num : Z) (w : World)
  : Completion bool * World :=
  if Size.x (getSize (getBoard (this w)))
     * Size.y (getSize (getBoard (this w))) >=? num
  then
    match global_game w with
    | Undeclared => (Throw (ReferenceError "game"), w)
    | SameGame =>
        (Normal true,
         mkWorld (updateNumPiecesEachPlayer num (this w)) SameGame)
    | OtherGame g' =>
        (Normal true,
         mkWorld (this w) (OtherGame (updateNumPiecesEachPlayer num g')))
    end
  else (Normal false, w).

(** A setter that only touches [this] and always returns a value. *)
Definition on_this (setter : Game -> bool * Game) (w : World)
  : Completion bool * World :=
  (Normal (fst (setter (this w))), with_this (snd (setter (this w))) w).

Definition updateGameConfig (prop : Selector) (arg : Arg) (w : World)
  : Completion bool * World :=
  if negb (GameState.eqb (state (this w)) GameState.ONGOING)
     && (totalGamesPlayed (this w) <=? 0)
  then
    match prop with
    | Sel GameProp.SIZE =>
        on_this (updateProp_size (arg_x arg) (arg_y arg)) w
    | Sel GameProp.WIN_LENGTH =>
        on_this (updateProp_winLength (arg_len arg)) w
    | Sel GameProp.IS_LIMITED_PIECES =>
        on_this (updateProp_isLimitedPieces (arg_isLimited arg)) w
    | Sel GameProp.NUM_PIECES =>
        updateProp_numPieces (arg_num arg) w
    | Sel GameProp.IS_FIFO_ORDER =>
        on_this (updateProp_isFifoOrder (arg_isFifo arg)) w
    | NotAProp _ => (Normal false, w)
    end
  else (Normal false, w).

(** ** Match and game life cycle *)

Definition readyGame (g : Game) : Game :=
  let g := set_state GameState.PREPARING g in
  let g := set_board (resetBoard (board g)) g in
  let g := set_currentPlayer (firstTurnPlayer g) g in
  let g := call_on (currentPlayer g) resetPlayerMoveHistory g in
  let g := set_winner (RoleValue Role.NONE) g in
  let g := set_winCells [] g in
  set_state GameState.READY g.

(** The [Player] passed to [resetMatch] is one of the game's own two. *)
Definition resetMatch (firstTurnPlayer : PlayerRef) (g : Game) : Game :=
  let g := set_player1 (resetScore (player1 g)) g in
  let g := set_player2 (resetScore (player2 g)) g in
  let g := set_firstTurnPlayer firstTurnPlayer g in
  let g := set_totalGamesPlayed 0 g in
  readyGame g.

(** [resetMatch()]: the parameter defaults to [this.player1]. *)
Definition resetMatch_default (g : Game) : Game := resetMatch RefPlayer1 g.

Definition startGame (g : Game) : Game := set_state GameState.ONGOING g.

Definition swapTurns (g : Game) : PlayerRef * Game :=
  let p := if PlayerRef_eqb (currentPlayer g) RefPlayer1
           then RefPlayer2 else RefPlayer1 in
  (p, set_currentPlayer p g).

Definition swapFirstTurn (g : Game) : PlayerRef * Game :=
  let p := if PlayerRef_eqb (firstTurnPlayer g) RefPlayer1
           then RefPlayer2 else RefPlayer1 in
  (p, set_firstTurnPlayer p g).

Definition nextGame (g : Game) : Game :=
  let g := snd (swapFirstTurn g) in
  readyGame g.

(** ** Move and outcome resolution *)

Definition checkWinner (x y : Z) (g : Game) : option (list Coord) :=
  winnerCheckingSlidingWindow (cells (board g))
                              (role (deref (currentPlayer g) g))
                              x y (winLength g).

Definition checkValidMoves (g : Game) : bool :=
  hasPlayableSquares (board g).

Definition updateGameStateByLastMove (posX posY : Z) (g : Game) : Game :=
  match checkWinner posX posY g with
  | Some winCells =>
      let g := set_winner (PlayerValue (currentPlayer g)) g in
      let g := set_winCells winCells g in
      let g := call_on (currentPlayer g) (addScore 1%Q) g in
      let g := set_totalGamesPlayed (totalGamesPlayed g + 1) g in
      set_state GameState.FINISHED g
  | None =>
      if checkValidMoves g
      then
        let g := snd (swapTurns g) in
        set_state GameState.ONGOING g
      else
        let g := set_winner (RoleValue Role.NONE) g in
        let g := set_player1 (addScore (1 # 2)%Q (player1 g)) g in
        let g := set_player2 (addScore (1 # 2)%Q (player2 g)) g in
        let g := set_totalGamesPlayed (totalGamesPlayed g + 1) g in
        set_state GameState.FINISHED g
  end.

(** The [console.log] calls of the success branch print the board and
    both histories and change nothing. *)
Definition playerMakeMove (x y : Z) (g : Game) : bool * Game :=
  if negb (GameState.eqb (state g) GameState.ONGOING) then (false, g)
  else
    let (isMarkPlaced, b) :=
      placeMark x y (role (deref (currentPlayer g) g)) (board g) in
    let g := set_board b g in
    if isMarkPlaced
    then
      let g := call_on (currentPlayer g) (updatePlayerMove x y) g in
      (true, g)
    else (false, g).

(** ** Sequences of calls *)

(** The calls a client of the class can make that change the state.
    [updateProp()] is a method like the others, so its setters can be
    reached without going through [updateGameConfig]. *)
Inductive Call : Type :=
| Call_updateGameConfig (prop : Selector) (arg : Arg)
| Call_updateProp_size (x y : Z)
| Call_updateProp_winLength (len : Z)
| Call_updateProp_isLimitedPieces (isLimited : bool)
| Call_updateProp_numPieces (num : Z)
| Call_updateProp_isFifoOrder (isFifo : bool)
| Call_updateNumPiecesEachPlayer (num : Z)
| Call_readyGame
| Call_resetMatch (firstTurnPlayer : PlayerRef)
| Call_startGame
| Call_nextGame
| Call_updateGameStateByLastMove (posX posY : Z)
| Call_playerMakeMove (x y : Z)
| Call_swapTurns
| Call_swapFirstTurn.

(** The state a call leaves behind; a call that throws leaves the state
    it had reached when the exception left it. *)
Definition exec (c : Call) (w : World) : World :=
  match c with
  | Call_updateGameConfig prop arg => snd (updateGameConfig prop arg w)
  | Call_updateProp_size x y => snd (on_this (updateProp_size x y) w)
  | Call_updateProp_winLength len =>
      snd (on_this (updateProp_winLength len) w)
  | Call_updateProp_isLimitedPieces isLimited =>
      snd (on_this (updateProp_isLimitedPieces isLimited) w)
  | Call_updateProp_numPieces num => snd (updateProp_numPieces num w)
  | Call_updateProp_isFifoOrder isFifo =>
      snd (on_this (updateProp_isFifoOrder isFifo) w)
  | Call_updateNumPiecesEachPlayer num =>
      with_this (updateNumPiecesEachPlayer num (this w)) w
  | Call_readyGame => with_this (readyGame (this w)) w
  | Call_resetMatch p => with_this (resetMatch p (this w)) w
  | Call_startGame => with_this (startGame (this w)) w
  | Call_nextGame => with_this (nextGame (this w)) w
  | Call_updateGameStateByLastMove posX posY =>
      with_this (updateGameStateByLastMove posX posY (this w)) w
  | Call_playerMakeMove x y => with_this (snd (playerMakeMove x y (this w))) w
  | Call_swapTurns => with_this (snd (swapTurns (this w))) w
  | Call_swapFirstTurn => with_this (snd (swapFirstTurn (this w))) w
  end.

Definition run (calls : list Call) (w : World) : World :=
  fold_left (fun w c => exec c w) calls w.

(** The two readings of "winLength fits the board". *)
Definition fits_both_dimensions (g : Game) : Prop :=
  winLength g <= Z.min (Size.x (getSize (board g)))
                       (Size.y (getSize (board g))).

Definition fits_one_dimension (g : Game) : Prop :=
  winLength g <= Z.max (Size.x (getSize (board g)))
                       (Size.y (getSize (board g))).

(** What a call that is no configuration update leaves as it is. *)
Definition same_dimensions (g g' : Game) : Prop :=
  winLength g' = winLength g /\ getSize (board g') = getSize (board g).

(** The predicate of the configuration gate, as the spec words it, and
    its negation: the gate lets the call through. *)
Definition match_in_progress (g : Game) : Prop :=
  state g = GameState.ONGOING \/ totalGamesPlayed g > 0.

Definition gate_open (g : Game) : Prop :=
  state g <> GameState.ONGOING /\ totalGamesPlayed g <= 0.

(** The calls that end in the [winLength] setter. *)
Definition is_winLength_update (c : Call) : bool :=
  match c with
  | Call_updateGameConfig (Sel GameProp.WIN_LENGTH) _ => true
  | Call_updateProp_winLength _ => true
  | _ => false
  end.

(** ** Configuration and bookkeeping *)

(** The configuration of a game: the four configuration fields and the
    size of the board. *)
Definition configuration (g : Game) : Z * bool * Z * bool * Size.t :=
  (winLength g, isLimitedPieces g, numPieces g, isFifoOrder g,
   getSize (board g)).

(** Everything else but the board: players, turns, outcome, count of
    games and state. *)
Definition bookkeeping (g : Game)
  : Player * Player * PlayerRef * PlayerRef * WinnerValue * list Coord
    * Z * GameState.t :=
  (player1 g, player2 g, currentPlayer g, firstTurnPlayer g, winner g,
   winCells g, totalGamesPlayed g, state g).

(** The calls that end in a configuration setter. *)
Definition is_configuration_call (c : Call) : bool :=
  match c with
  | Call_updateGameConfig _ _
  | Call_updateProp_size _ _
  | Call_updateProp_winLength _
  | Call_updateProp_isLimitedPieces _
  | Call_updateProp_numPieces _
  | Call_updateProp_isFifoOrder _
  | Call_updateNumPiecesEachPlayer _ => true
  | _ => false
  end.

(** The two scores add up to the number of games played. *)
Definition tally_matches_games (g : Game) : Prop :=
  (score (player1 g) + score (player2 g)
   == inject_Z (totalGamesPlayed g))%Q.

(** What [winner] holds: [Role.NONE] or a [Player]. *)
Definition winner_is_none_or_player (g : Game) : Prop :=
  winner g = RoleValue Role.NONE \/ exists p, winner g = PlayerValue p.

(** The one call that starts a new match. *)
Definition is_resetMatch (c : Call) : bool :=
  match c with
  | Call_resetMatch _ => true
  | _ => false
  end.

End GameModel.

Arguments Game : clear implicits.
Arguments World : clear implicits.
Arguments GlobalBinding : clear implicits.

(** ** Collaborators to run the model on *)

Module Collaborators.

Definition Coord_eqb (a b : Coord) : bool :=
  (fst a =? fst b) && (snd a =? snd b).

(** Modelled from the spec: board.js is not among the sources.  The spec
    gives the Board as a capability: "place a mark at a coordinate if and
    only if the cell is empty and in-bounds; report whether any empty
    cell remains; resize the grid; clear all cells".  The grid is kept
    as the list of the marks placed, most recent first; a cell without a
    mark holds [Role.NONE]. *)
Record GridBoard : Type := mkGridBoard {
  grid_size : Size.t;
  grid_marks : list (Coord * Role.t)
}.

Definition cellAt (marks : list (Coord * Role.t)) (c : Coord) : Role.t :=
  match find (fun m => Coord_eqb (fst m) c) marks with
  | Some m => snd m
  | None => Role.NONE
  end.

Definition inBounds (s : Size.t) (c : Coord) : bool :=
  (0 <=? fst c) && (fst c <? Size.x s)
  && (0 <=? snd c) && (snd c <? Size.y s).

Definition allCoords (s : Size.t) : list Coord :=
  flat_map (fun i => map (fun j => (Z.of_nat i, Z.of_nat j))
                         (seq 0 (Z.to_nat (Size.y s))))
           (seq 0 (Z.to_nat (Size.x s))).

Definition grid_placeMark (x y : Z) (r : Role.t) (b : GridBoard)
  : bool * GridBoard :=
  if inBounds (grid_size b) (x, y)
     && Role.eqb (cellAt (grid_marks b) (x, y)) Role.NONE
  then (true, mkGridBoard (grid_size b) (((x, y), r) :: grid_marks b))
  else (false, b).

Definition grid_hasPlayableSquares (b : GridBoard) : bool :=
  existsb (fun c => Role.eqb (cellAt (grid_marks b) c) Role.NONE)
          (allCoords (grid_size b)).

Definition grid_updateSize (x y : Z) (b : GridBoard) : GridBoard :=
  mkGridBoard (Size.mk x y)
              (filter (fun m => inBounds (Size.mk x y) (fst m))
                      (grid_marks b)).

Definition grid_resetBoard (b : GridBoard) : GridBoard :=
  mkGridBoard (grid_size b) [].

#[export] Instance grid_board_ops
  : BoardOps GridBoard (list (Coord * Role.t)) :=
  {| newBoard := fun x y => mkGridBoard (Size.mk x y) [];
     getSize := grid_size;
     cells := grid_marks;
     updateSize := grid_updateSize;
     resetBoard := grid_resetBoard;
     placeMark := grid_placeMark;
     hasPlayableSquares := grid_hasPlayableSquares |}.

(** Modelled from the spec: player.js is not among the sources.  The
    spec gives the Player as a capability, "record a move, clear move
    history, accumulate score, reset score", that "holds [role],
    [score], [moveHistory]".  A move is recorded at the end of the
    history. *)
Record PlainPlayer : Type := mkPlainPlayer {
  plain_name : string;
  plain_symbol : string;
  plain_role : Role.t;
  plain_score : Q;
  plain_moveHistory : list Coord
}.

#[export] Instance plain_player_ops : PlayerOps PlainPlayer :=
  {| newPlayer := fun n s r => mkPlainPlayer n s r 0%Q [];
     role := plain_role;
     score := plain_score;
     moveHistory := plain_moveHistory;
     updatePlayerMove := fun x y p =>
       mkPlainPlayer (plain_name p) (plain_symbol p) (plain_role p)
                     (plain_score p) (plain_moveHistory p ++ [(x, y)]);
     resetPlayerMoveHistory := fun p =>
       mkPlainPlayer (plain_name p) (plain_symbol p) (plain_role p)
                     (plain_score p) [];
     addScore := fun amount p =>
       mkPlainPlayer (plain_name p) (plain_symbol p) (plain_role p)
                     (plain_score p + amount)%Q (plain_moveHistory p);
     resetScore := fun p =>
       mkPlainPlayer (plain_name p) (plain_symbol p) (plain_role p)
                     0%Q (plain_moveHistory p) |}.

(** Modelled from the spec: utils/winnerCheck.js is not among the
    sources.  The spec gives the detector as the function that "returns
    the coordinates of a winning line through that point, or signals no
    win", a winning line being "a contiguous run of cells, length
    winLength, all owned by the same role, along any axis-aligned or
    diagonal direction".  [window] is the run of [len] cells along
    [(dx, dy)] in which [(x, y)] comes [k]-th. *)
Definition window (x y dx dy : Z) (len : nat) (k : nat) : list Coord :=
  map (fun i => (x + (Z.of_nat i - Z.of_nat k) * dx,
                 y + (Z.of_nat i - Z.of_nat k) * dy))
      (seq 0 len).

Definition directions : list (Z * Z) := [(0, 1); (1, 0); (1, 1); (1, -1)].

Definition windowsThrough (x y : Z) (len : nat) : list (list Coord) :=
  flat_map (fun d => map (window x y (fst d) (snd d) len) (seq 0 len))
           directions.

Definition slidingWindow (marks : list (Coord * Role.t)) (r : Role.t)
           (x y winLength : Z) : option (list Coord) :=
  find (forallb (fun c => Role.eqb (cellAt marks c) r))
       (windowsThrough x y (Z.to_nat winLength)).

#[export] Instance sliding_window_detector
  : LineDetector (list (Coord * Role.t)) :=
  {| winnerCheckingSlidingWindow := slidingWindow |}.

Definition TheGame : Type := Game GridBoard PlainPlayer.
Definition TheWorld : Type := World GridBoard PlainPlayer.

(** A fresh 3x3 game with winLength 3, loaded by a program that has no
    global [game]. *)
Definition fresh3x3 : TheWorld :=
  mkWorld (constructor 3 3 3 3 true) Undeclared.

(** A fresh 4x4 game with winLength 4. *)
Definition fresh4x4 : TheWorld :=
  mkWorld (constructor 4 4 4 4 true) Undeclared.

(** Scenario A up to the third move of Player 1: Player 1 on (0,0),
    (0,1), (0,2), Player 2 on (1,0), (1,1); the outcome of the last move
    is not resolved yet. *)
Definition scenarioA_calls : list Call :=
  [ Call_startGame;
    Call_playerMakeMove 0 0; Call_updateGameStateByLastMove 0 0;
    Call_playerMakeMove 1 0; Call_updateGameStateByLastMove 1 0;
    Call_playerMakeMove 0 1; Call_updateGameStateByLastMove 0 1;
    Call_playerMakeMove 1 1; Call_updateGameStateByLastMove 1 1;
    Call_playerMakeMove 0 2 ].

Definition scenarioA : TheGame := this (run scenarioA_calls fresh3x3).

(** Scenario B up to the ninth move: the board is full and neither role
    has three in a row.
<<
      y=0 y=1 y=2
 x=0   X   O   X
 x=1   X   O   O
 x=2   O   X   X
>> *)
Definition scenarioB_calls : list Call :=
  [ Call_startGame;
    Call_playerMakeMove 0 0; Call_updateGameStateByLastMove 0 0;
    Call_playerMakeMove 0 1; Call_updateGameStateByLastMove 0 1;
    Call_playerMakeMove 0 2; Call_updateGameStateByLastMove 0 2;
    Call_playerMakeMove 1 1; Call_updateGameStateByLastMove 1 1;
    Call_playerMakeMove 1 0; Call_updateGameStateByLastMove 1 0;
    Call_playerMakeMove 1 2; Call_updateGameStateByLastMove 1 2;
    Call_playerMakeMove 2 1; Call_updateGameStateByLastMove 2 1;
    Call_playerMakeMove 2 0; Call_updateGameStateByLastMove 2 0;
    Call_playerMakeMove 2 2 ].

Definition scenarioB : TheGame := this (run scenarioB_calls fresh3x3).

(** A game whose first move, Player 1 on (0,0), is not resolved yet, and
    the same game with Player 2 to move. *)
Definition firstMoveMade : TheGame :=
  this (run [ Call_startGame; Call_playerMakeMove 0 0 ] fresh3x3).

Definition oneMoveIn : TheGame :=
  updateGameStateByLastMove 0 0 firstMoveMade.

(** Scenario A with its outcome resolved: a finished game in which both
    players have a move history. *)
Definition scenarioA_finished : TheGame :=
  updateGameStateByLastMove 0 2 scenarioA.

(** A 3x5 board, then a winning line of 5. *)
Definition resize_then_lengthen : list Call :=
  [ Call_updateGameConfig (Sel GameProp.SIZE) (mkArg 3 5 0 false 0 false);
    Call_updateGameConfig (Sel GameProp.WIN_LENGTH)
                          (mkArg 0 0 5 false 0 false) ].

End Collaborators.

(** ** More states to run the model on *)

Module Scenarios.

Import Collaborators.

(** Scenario A played to its end. *)
Definition scenarioA_played : list Call :=
  scenarioA_calls ++ [Call_updateGameStateByLastMove 0 2].

(** Scenario D: after the finished scenario A, the next game is made
    ready. *)
Definition betweenGames : TheGame := nextGame scenarioA_finished.

(** Between two games: the next game is made ready, started, and Player 2
    opens it on (2,2). *)
Definition into_the_second_game : list Call :=
  [Call_nextGame; Call_startGame; Call_playerMakeMove 2 2].

(** A fresh 3x3 game resized to 3x5: winLength is still 3. *)
Definition threeByFive : TheWorld :=
  exec (Call_updateGameConfig (Sel GameProp.SIZE)
                              (mkArg 3 5 0 false 0 false))
       fresh3x3.

(** The calls of scenario A are no configuration calls, and those of the
    second game contain no resetMatch. *)
Definition only_lifecycle_calls (calls : list Call) : bool :=
  forallb (fun c => negb (is_configuration_call c)) calls.

Definition no_resetMatch (calls : list Call) : bool :=
  forallb (fun c => negb (is_resetMatch c)) calls.

End Scenarios.

(** * Properties *)

Lemma Role_eqb_eq (a b : Role.t) : Role.eqb a b = true <-> a = b.
Proof. destruct a, b; simpl; split; intro E; congruence. Qed.

Lemma GameState_eqb_eq (a b : GameState.t) :
  GameState.eqb a b = true <-> a = b.
Proof. destruct a, b; simpl; split; intro E; congruence. Qed.

Lemma GameState_eqb_neq (a b : GameState.t) :
  GameState.eqb a b = false <-> a <> b.
Proof. destruct a, b; simpl; split; intro E; congruence. Qed.

Lemma other_player_neq (r : PlayerRef) : other_player r <> r.
Proof. destruct r; discriminate. Qed.

Section GameProperties.

Context {Board Cells Player : Type}.
Context {board_ops : BoardOps Board Cells}.
Context {player_ops : PlayerOps Player}.
Context {detector : LineDetector Cells}.

Abbreviation Game := (Game Board Player).
Abbreviation World := (World Board Player).

(** ** What the proofs ask of the collaborators *)

(** Board: the grid has the size it was last given, and clearing it or
    placing a mark does not resize it. *)
Hypothesis getSize_updateSize :
  forall x y (b : Board), getSize (updateSize x y b) = Size.mk x y.
Hypothesis getSize_resetBoard :
  forall b : Board, getSize (resetBoard b) = getSize b.
Hypothesis getSize_placeMark :
  forall x y r (b : Board), getSize (snd (placeMark x y r b)) = getSize b.

(** Board: a placement that is refused leaves the board as it was. *)
Hypothesis placeMark_refused :
  forall x y r (b : Board),
    fst (placeMark x y r b) = false -> snd (placeMark x y r b) = b.

(** Player: the score accumulates, and the history methods leave it. *)
Hypothesis score_addScore :
  forall amount (p : Player),
    (score (addScore amount p) == score p + amount)%Q.
Hypothesis score_resetPlayerMoveHistory :
  forall p : Player, (score (resetPlayerMoveHistory p) == score p)%Q.

(** Player: a recorded move is in the history, a cleared history is
    empty. *)
Hypothesis moveHistory_updatePlayerMove :
  forall x y (p : Player), In (x, y) (moveHistory (updatePlayerMove x y p)).
Hypothesis moveHistory_resetPlayerMoveHistory :
  forall p : Player, moveHistory (resetPlayerMoveHistory p) = [].

(** ** The configuration gate *)

Lemma gate_test_true (g : Game) :
  negb (GameState.eqb (state g) GameState.ONGOING)
  && (totalGamesPlayed g <=? 0) = true <-> gate_open g.
Proof.
  unfold gate_open.
  rewrite andb_true_iff, negb_true_iff, GameState_eqb_neq, Z.leb_le.
  reflexivity.
Qed.

Lemma gate_test_false (g : Game) :
  negb (GameState.eqb (state g) GameState.ONGOING)
  && (totalGamesPlayed g <=? 0) = false <-> match_in_progress g.
Proof.
  unfold match_in_progress.
  rewrite andb_false_iff, negb_false_iff, GameState_eqb_eq, Z.leb_gt.
  split; intros [E | E]; auto; right; lia.
Qed.

Lemma isDuringMatch_spec (g : Game) :
  isDuringMatch g = true <-> match_in_progress g.
Proof.
  unfold isDuringMatch.
  destruct (negb _ && _) eqn:E.
  - apply gate_test_true in E. unfold match_in_progress.
    destruct E as [E1 E2]. split; [discriminate |].
    intros [E | E]; [contradiction | lia].
  - apply gate_test_false in E. tauto.
Qed.

Lemma with_this_same (w : World) : with_this (this w) w = w.
Proof. destruct w; reflexivity. Qed.

(** C1: a call of updateGameConfig made while the state is ONGOING or
    totalGamesPlayed > 0 returns false and changes nothing, whatever
    the selector and the arguments; and so does a call with a selector
    that is no member of GameProp, also when the gate is open. *)
Theorem C1_updateGameConfig_refuses (prop : Selector) (arg : Arg)
        (w : World) :
  match_in_progress (this w) \/ (exists s, prop = NotAProp s) ->
  updateGameConfig prop arg w = (Normal false, w).
Proof.
  intros [Hmatch | [s ->]]; unfold updateGameConfig.
  - apply gate_test_false in Hmatch. rewrite Hmatch. reflexivity.
  - destruct (negb _ && _); reflexivity.
Qed.

(** C5: with the gate open, updateGameConfig(WIN_LENGTH, {len}) returns
    true and assigns winLength := len exactly when boardSize.x >= len or
    boardSize.y >= len: the winLength read after the call is len, and the
    board, the other configuration fields, the players, the turns, the
    outcome, totalGamesPlayed, the state and the global scope are as
    before; otherwise it returns false, changes nothing, and the
    winLength read after the call is the one before.  On a 4x4 board
    len = 5 is refused. *)
Theorem C5_winLength_update (arg : Arg) (w : World) :
  gate_open (this w) ->
  let size := getSize (board (this w)) in
  let len := arg_len arg in
  let result := updateGameConfig (Sel GameProp.WIN_LENGTH) arg w in
  let g := this w in
  let g' := this (snd result) in
  (Size.x size >= len \/ Size.y size >= len ->
   result = (Normal true, with_this (set_winLength len (this w)) w)
   /\ getWinningLineLength g' = len
   /\ winLength g' = len
   /\ board g' = board g
   /\ (isLimitedPieces g', numPieces g', isFifoOrder g')
      = (isLimitedPieces g, numPieces g, isFifoOrder g)
   /\ bookkeeping g' = bookkeeping g
   /\ global_game (snd result) = global_game w)
  /\ (~ (Size.x size >= len \/ Size.y size >= len) ->
      result = (Normal false, w)
      /\ getWinningLineLength g' = winLength g
      /\ g' = g)
  /\ (fst result = Normal true <->
      Size.x size >= len \/ Size.y size >= len)
  /\ (size = Size.mk 4 4 -> len = 5 ->
      result = (Normal false, w)
      /\ getWinningLineLength g' = winLength g).
Proof.
  intros Hopen size len result g g'.
  assert (Hyes : Size.x size >= len \/ Size.y size >= len ->
                 result = (Normal true, with_this (set_winLength len (this w)) w)).
  { intros Hfit. subst result. unfold updateGameConfig.
    apply gate_test_true in Hopen. rewrite Hopen.
    unfold on_this, updateProp_winLength, getBoard. fold size len.
    replace ((Size.x size >=? len) || (Size.y size >=? len)) with true.
    - reflexivity.
    - symmetry. apply orb_true_iff. rewrite !Z.geb_le. lia. }
  assert (Hno : ~ (Size.x size >= len \/ Size.y size >= len) ->
                result = (Normal false, w)).
  { intros Hfit. subst result. unfold updateGameConfig.
    apply gate_test_true in Hopen. rewrite Hopen.
    unfold on_this, updateProp_winLength, getBoard. fold size len.
    replace ((Size.x size >=? len) || (Size.y size >=? len)) with false.
    - simpl. now rewrite with_this_same.
    - symmetry. apply orb_false_iff. rewrite !Z.geb_leb, !Z.leb_gt. lia. }
  split; [| split; [| split]].
  - intros Hfit. split; [exact (Hyes Hfit) |].
    subst g'. rewrite (Hyes Hfit). subst g. cbn.
    repeat split.
  - intros Hfit. split; [exact (Hno Hfit) |].
    subst g'. rewrite (Hno Hfit). split; reflexivity.
  - split.
    + intros Htrue.
      destruct (Z_ge_dec (Size.x size) len) as [Hx | Hx]; [now left |].
      destruct (Z_ge_dec (Size.y size) len) as [Hy | Hy]; [now right |].
      rewrite Hno in Htrue by tauto. discriminate.
    + intros Hfit. rewrite (Hyes Hfit). reflexivity.
  - intros Hsize Hlen.
    assert (Hfit : ~ (Size.x size >= len \/ Size.y size >= len)).
    { rewrite Hsize, Hlen. simpl. lia. }
    split; [exact (Hno Hfit) |].
    subst g'. rewrite (Hno Hfit). reflexivity.
Qed.

Lemma updateProp_size_eq (x y : Z) (g : Game) :
  updateProp_size x y g
  = (true,
     set_winLength (if (x <? winLength g) || (y <? winLength g)
                    then Z.min x y else winLength g)
                   (set_board (updateSize x y (board g)) g)).
Proof.
  unfold updateProp_size.
  change (winLength (set_board (updateSize x y (board g)) g))
    with (winLength g).
  assert (Hmin : (if x <? y then x else y) = Z.min x y).
  { destruct (Z.ltb_spec x y); lia. }
  rewrite Hmin.
  destruct ((x <? winLength g) || (y <? winLength g)); reflexivity.
Qed.

(** C6: with the gate open, updateGameConfig(SIZE, {x, y}) returns true
    and has the board resized to (x, y); winLength becomes min(x, y) if
    x or y is smaller than it and stays as it is otherwise, so that after
    the call winLength <= min(x, y); no other field changes. *)
Theorem C6_size_update (arg : Arg) (w : World) :
  gate_open (this w) ->
  let x := arg_x arg in
  let y := arg_y arg in
  let result := updateGameConfig (Sel GameProp.SIZE) arg w in
  let g := this w in
  let g' := this (snd result) in
  fst result = Normal true
  /\ board g' = updateSize x y (board g)
  /\ getSize (board g') = Size.mk x y
  /\ (x < winLength g \/ y < winLength g -> winLength g' = Z.min x y)
  /\ (~ (x < winLength g \/ y < winLength g) -> winLength g' = winLength g)
  /\ winLength g' <= Z.min x y
  /\ snd result
     = with_this (set_winLength (winLength g') (set_board (board g') g)) w.
Proof.
  intros Hopen. cbv zeta. unfold updateGameConfig.
  apply gate_test_true in Hopen. rewrite Hopen.
  unfold on_this. rewrite updateProp_size_eq.
  cbn [fst snd this with_this].
  remember (arg_x arg) as x eqn:Ex. remember (arg_y arg) as y eqn:Ey.
  remember (this w) as g eqn:Eg. clear Ex Ey Eg Hopen.
  destruct ((x <? winLength g) || (y <? winLength g)) eqn:Hsmall.
  - apply orb_true_iff in Hsmall. rewrite !Z.ltb_lt in Hsmall.
    cbn. rewrite getSize_updateSize.
    repeat split; auto; try lia.
  - apply orb_false_iff in Hsmall. rewrite !Z.ltb_ge in Hsmall.
    cbn. rewrite getSize_updateSize.
    repeat split; auto; try lia.
Qed.

(** C7: with the gate open, updateGameConfig(NUM_PIECES, {num}) returns
    false and changes nothing if the board has fewer than num cells.  If
    it has num cells or more, the setter evaluates
    [game.updateNumPiecesEachPlayer(num)]: where no global [game] exists
    the call throws a ReferenceError and numPieces keeps its value; the
    call returns true and assigns numPieces := num only where the global
    [game] is the receiver itself; where it is another Game the call
    returns true and the receiver is left as it was. *)
Theorem C7_numPieces_update (arg : Arg) (w : World) :
  gate_open (this w) ->
  let size := getSize (board (this w)) in
  let num := arg_num arg in
  let result := updateGameConfig (Sel GameProp.NUM_PIECES) arg w in
  (Size.x size * Size.y size < num -> result = (Normal false, w))
  /\ (Size.x size * Size.y size >= num ->
      match global_game w with
      | Undeclared => result = (Throw (ReferenceError "game"), w)
      | SameGame =>
          result = (Normal true, with_this (set_numPieces num (this w)) w)
      | OtherGame other =>
          result
          = (Normal true,
             mkWorld (this w)
                     (OtherGame (updateNumPiecesEachPlayer num other)))
      end).
Proof.
  intros Hopen size num result. subst result.
  unfold updateGameConfig.
  pose proof Hopen as Htest. apply gate_test_true in Htest. rewrite Htest.
  unfold updateProp_numPieces, getBoard. fold size num.
  split; intros Hcells.
  - replace (Size.x size * Size.y size >=? num) with false; [reflexivity |].
    symmetry. rewrite Z.geb_leb. apply Z.leb_gt. lia.
  - replace (Size.x size * Size.y size >=? num) with true.
    + destruct (global_game w) eqn:Hglobal; try reflexivity.
      unfold updateNumPiecesEachPlayer.
      destruct Hopen as [Hstate _]. apply GameState_eqb_neq in Hstate.
      rewrite Hstate. simpl. unfold with_this. rewrite Hglobal. reflexivity.
    + symmetry. rewrite Z.geb_leb. apply Z.leb_le. lia.
Qed.

(** ** Move and outcome resolution *)

Lemma swapTurns_other (g : Game) :
  swapTurns g
  = (other_player (currentPlayer g),
     set_currentPlayer (other_player (currentPlayer g)) g).
Proof. unfold swapTurns. destruct (currentPlayer g); reflexivity. Qed.

Lemma swapFirstTurn_other (g : Game) :
  swapFirstTurn g
  = (other_player (firstTurnPlayer g),
     set_firstTurnPlayer (other_player (firstTurnPlayer g)) g).
Proof. unfold swapFirstTurn. destruct (firstTurnPlayer g); reflexivity. Qed.

Lemma updateGameStateByLastMove_win (posX posY : Z) (g : Game)
      (line : list Coord) :
  checkWinner posX posY g = Some line ->
  updateGameStateByLastMove posX posY g
  = set_state GameState.FINISHED
      (set_totalGamesPlayed (totalGamesPlayed g + 1)
         (call_on (currentPlayer g) (addScore 1%Q)
            (set_winCells line
               (set_winner (PlayerValue (currentPlayer g)) g)))).
Proof.
  intros Hline. unfold updateGameStateByLastMove. rewrite Hline.
  destruct g as [? ? ? ? ? ? ? mover ? ? ? ? ?]. destruct mover; reflexivity.
Qed.

Lemma updateGameStateByLastMove_continue (posX posY : Z) (g : Game) :
  checkWinner posX posY g = None ->
  checkValidMoves g = true ->
  updateGameStateByLastMove posX posY g
  = set_state GameState.ONGOING
      (set_currentPlayer (other_player (currentPlayer g)) g).
Proof.
  intros Hline Hmoves. unfold updateGameStateByLastMove.
  rewrite Hline, Hmoves, swapTurns_other. reflexivity.
Qed.

Lemma updateGameStateByLastMove_draw (posX posY : Z) (g : Game) :
  checkWinner posX posY g = None ->
  checkValidMoves g = false ->
  updateGameStateByLastMove posX posY g
  = set_state GameState.FINISHED
      (set_totalGamesPlayed (totalGamesPlayed g + 1)
         (set_player2 (addScore (1 # 2)%Q (player2 g))
            (set_player1 (addScore (1 # 2)%Q (player1 g))
               (set_winner (RoleValue Role.NONE) g)))).
Proof.
  intros Hline Hmoves. unfold updateGameStateByLastMove.
  rewrite Hline, Hmoves. reflexivity.
Qed.

(** C2: when the detector finds a line through (posX, posY) for the
    mover, updateGameStateByLastMove stores the line in winCells, adds 1
    to the mover's score and leaves the other player alone, adds 1 to
    totalGamesPlayed and sets the state to FINISHED.  In winner it stores
    the mover's Player object, [this.currentPlayer], which is no Role. *)
Theorem C2_win_resolution (posX posY : Z) (g : Game) (line : list Coord) :
  checkWinner posX posY g = Some line ->
  let mover := currentPlayer g in
  let g' := updateGameStateByLastMove posX posY g in
  winner g' = PlayerValue mover
  /\ (forall r : Role.t, winner g' <> RoleValue r)
  /\ winCells g' = line
  /\ deref mover g' = addScore 1%Q (deref mover g)
  /\ (score (deref mover g') == score (deref mover g) + 1)%Q
  /\ deref (other_player mover) g' = deref (other_player mover) g
  /\ totalGamesPlayed g' = totalGamesPlayed g + 1
  /\ state g' = GameState.FINISHED.
Proof.
  intros Hline. cbv zeta.
  rewrite (updateGameStateByLastMove_win _ _ _ _ Hline).
  destruct (currentPlayer g); cbn; repeat split;
    try discriminate; apply score_addScore.
Qed.

(** C3: when the detector finds no line, updateGameStateByLastMove
    either continues the game (the board reports a playable square):
    currentPlayer becomes the other player, the state ONGOING, and
    totalGamesPlayed, winner and both Player objects, so both scores,
    stay as they are; or it ends the game in a draw (no playable
    square): winner is Role.NONE, each score grows by 0.5,
    totalGamesPlayed grows by 1 and the state is FINISHED. *)
Theorem C3_no_line_resolution (posX posY : Z) (g : Game) :
  checkWinner posX posY g = None ->
  let g' := updateGameStateByLastMove posX posY g in
  (checkValidMoves g = true ->
   currentPlayer g' = other_player (currentPlayer g)
   /\ currentPlayer g' <> currentPlayer g
   /\ state g' = GameState.ONGOING
   /\ totalGamesPlayed g' = totalGamesPlayed g
   /\ winner g' = winner g
   /\ player1 g' = player1 g
   /\ player2 g' = player2 g)
  /\ (checkValidMoves g = false ->
      winner g' = RoleValue Role.NONE
      /\ (score (player1 g') == score (player1 g) + (1 # 2))%Q
      /\ (score (player2 g') == score (player2 g) + (1 # 2))%Q
      /\ totalGamesPlayed g' = totalGamesPlayed g + 1
      /\ state g' = GameState.FINISHED).
Proof.
  intros Hline. cbv zeta. split; intros Hmoves.
  - rewrite (updateGameStateByLastMove_continue _ _ _ Hline Hmoves). cbn.
    repeat split. apply other_player_neq.
  - rewrite (updateGameStateByLastMove_draw _ _ _ Hline Hmoves). cbn.
    repeat split; apply score_addScore.
Qed.

(** C10: updateGameStateByLastMove leaves currentPlayer as it is in the
    win branch and in the draw branch; it changes currentPlayer only when
    it continues the game.  After a win the current-player getter returns
    the mover, who is the player stored in winner and whose score grew. *)
Theorem C10_currentPlayer_frame (posX posY : Z) (g : Game) :
  let g' := updateGameStateByLastMove posX posY g in
  (forall line, checkWinner posX posY g = Some line ->
     state g' = GameState.FINISHED
     /\ getCurrentPlayer g' = currentPlayer g
     /\ getGameWinner g' = PlayerValue (getCurrentPlayer g')
     /\ deref (getCurrentPlayer g') g'
        = addScore 1%Q (deref (currentPlayer g) g))
  /\ (checkWinner posX posY g = None -> checkValidMoves g = false ->
      state g' = GameState.FINISHED
      /\ getCurrentPlayer g' = currentPlayer g)
  /\ (getCurrentPlayer g' <> currentPlayer g ->
      checkWinner posX posY g = None /\ checkValidMoves g = true
      /\ state g' = GameState.ONGOING).
Proof.
  cbv zeta. unfold getCurrentPlayer, getGameWinner.
  destruct (checkWinner posX posY g) as [found |] eqn:Hline.
  - rewrite (updateGameStateByLastMove_win _ _ _ _ Hline).
    destruct g as [? ? ? ? ? ? ? mover ? ? ? ? ?]. clear Hline.
    destruct mover; cbn; (split; [| split]).
    all: try discriminate.
    all: try (intros line _; repeat split).
    all: intros Hneq; now contradiction Hneq.
  - destruct (checkValidMoves g) eqn:Hmoves.
    + rewrite (updateGameStateByLastMove_continue _ _ _ Hline Hmoves). cbn.
      split; [| split]; try discriminate. intros _. repeat split.
    + rewrite (updateGameStateByLastMove_draw _ _ _ Hline Hmoves). cbn.
      split; [| split]; try discriminate.
      * intros _ _. repeat split.
      * intros Hneq. now contradiction Hneq.
Qed.

(** C8: playerMakeMove returns false and changes nothing, neither the
    board nor a move history nor any other field, when the state is not
    ONGOING or the board refuses the mark; when the board places the mark
    it returns true, the board is the one placeMark left, the mover's
    Player object has recorded the move, so (x, y) is in the mover's
    history, and the other player is as before. *)
Theorem C8_playerMakeMove (x y : Z) (g : Game) :
  let mover := currentPlayer g in
  let placement := placeMark x y (role (deref mover g)) (board g) in
  let result := playerMakeMove x y g in
  (state g <> GameState.ONGOING \/ fst placement = false ->
   result = (false, g))
  /\ (state g = GameState.ONGOING -> fst placement = true ->
      fst result = true
      /\ board (snd result) = snd placement
      /\ deref mover (snd result) = updatePlayerMove x y (deref mover g)
      /\ In (x, y) (moveHistory (deref mover (snd result)))
      /\ deref (other_player mover) (snd result)
         = deref (other_player mover) g).
Proof.
  cbv zeta. unfold playerMakeMove. split.
  - intros [Hstate | Hrefused].
    + apply GameState_eqb_neq in Hstate. rewrite Hstate. reflexivity.
    + destruct (negb _); [reflexivity |].
      pose proof (placeMark_refused _ _ _ _ Hrefused) as Hboard.
      destruct (placeMark x y (role (deref (currentPlayer g) g)) (board g))
        as [placed b].
      cbn in Hrefused, Hboard. subst placed b.
      destruct g; reflexivity.
  - intros Hstate Hplaced.
    apply GameState_eqb_eq in Hstate. rewrite Hstate. cbn [negb].
    destruct (placeMark x y (role (deref (currentPlayer g) g)) (board g))
      as [placed b].
    cbn in Hplaced. subst placed.
    destruct g as [? ? ? ? ? ? ? mover ? ? ? ? ?].
    destruct mover; cbn; repeat split; apply moveHistory_updatePlayerMove.
Qed.

(** ** Match and game life cycle *)

(** C9: readyGame has the board cleared, sets currentPlayer to
    firstTurnPlayer, winner to Role.NONE and winCells to the empty list,
    clears the move history of the first-turn player, leaves the other
    player's object, so its move history, untouched, leaves both scores,
    totalGamesPlayed, firstTurnPlayer and the configuration as they are,
    and ends in state READY. *)
Theorem C9_readyGame (g : Game) :
  let first := firstTurnPlayer g in
  let g' := readyGame g in
  board g' = resetBoard (board g)
  /\ currentPlayer g' = first
  /\ winner g' = RoleValue Role.NONE
  /\ winCells g' = []
  /\ deref first g' = resetPlayerMoveHistory (deref first g)
  /\ moveHistory (deref first g') = []
  /\ deref (other_player first) g' = deref (other_player first) g
  /\ (score (player1 g') == score (player1 g))%Q
  /\ (score (player2 g') == score (player2 g))%Q
  /\ totalGamesPlayed g' = totalGamesPlayed g
  /\ firstTurnPlayer g' = first
  /\ state g' = GameState.READY
  /\ (winLength g', isLimitedPieces g', numPieces g', isFifoOrder g')
     = (winLength g, isLimitedPieces g, numPieces g, isFifoOrder g).
Proof.
  cbv zeta. unfold readyGame.
  destruct g as [? ? ? ? ? ? ? ? ? ? first ? ?].
  destruct first; cbn; repeat split;
    solve [ apply moveHistory_resetPlayerMoveHistory
          | apply score_resetPlayerMoveHistory
          | apply Qeq_refl ].
Qed.

(** ** winLength and the board *)


Lemma readyGame_dimensions (g : Game) : same_dimensions g (readyGame g).
Proof.
  unfold same_dimensions, readyGame.
  destruct g as [? ? ? ? ? ? ? ? ? ? first ? ?].
  destruct first; cbn; auto.
Qed.

Lemma resetMatch_dimensions (p : PlayerRef) (g : Game) :
  same_dimensions g (resetMatch p g).
Proof.
  unfold resetMatch.
  destruct (readyGame_dimensions
              (set_totalGamesPlayed 0
                 (set_firstTurnPlayer p
                    (set_player2 (resetScore (player2 g))
                       (set_player1 (resetScore (player1 g)) g)))))
    as [Hlen Hsize].
  split; [exact Hlen | exact Hsize].
Qed.

Lemma nextGame_dimensions (g : Game) : same_dimensions g (nextGame g).
Proof.
  unfold nextGame. rewrite swapFirstTurn_other. cbn [snd].
  destruct (readyGame_dimensions
              (set_firstTurnPlayer (other_player (firstTurnPlayer g)) g))
    as [Hlen Hsize].
  split; [exact Hlen | exact Hsize].
Qed.

Lemma updateGameStateByLastMove_dimensions (posX posY : Z) (g : Game) :
  same_dimensions g (updateGameStateByLastMove posX posY g).
Proof.
  destruct (checkWinner posX posY g) as [line |] eqn:Hline.
  - rewrite (updateGameStateByLastMove_win _ _ _ _ Hline).
    destruct g as [? ? ? ? ? ? ? mover ? ? ? ? ?].
    destruct mover; split; reflexivity.
  - destruct (checkValidMoves g) eqn:Hmoves.
    + rewrite (updateGameStateByLastMove_continue _ _ _ Hline Hmoves).
      split; reflexivity.
    + rewrite (updateGameStateByLastMove_draw _ _ _ Hline Hmoves).
      split; reflexivity.
Qed.

Lemma playerMakeMove_dimensions (x y : Z) (g : Game) :
  same_dimensions g (snd (playerMakeMove x y g)).
Proof.
  unfold playerMakeMove.
  destruct (negb _); [split; reflexivity |].
  pose proof (getSize_placeMark x y (role (deref (currentPlayer g) g))
                                (board g)) as Hsize.
  destruct (placeMark x y (role (deref (currentPlayer g) g)) (board g))
    as [placed b].
  cbn in Hsize.
  destruct g as [? ? ? ? ? ? ? mover ? ? ? ? ?].
  destruct placed, mover; split; cbn; auto.
Qed.

Lemma updateNumPiecesEachPlayer_dimensions (num : Z) (g : Game) :
  same_dimensions g (updateNumPiecesEachPlayer num g).
Proof.
  unfold updateNumPiecesEachPlayer. destruct (negb _); split; reflexivity.
Qed.

Lemma updateProp_numPieces_dimensions (num : Z) (w : World) :
  same_dimensions (this w) (this (snd (updateProp_numPieces num w))).
Proof.
  unfold updateProp_numPieces.
  destruct (_ >=? _); [| split; reflexivity].
  destruct (global_game w); cbn [snd this]; try (split; reflexivity).
  apply updateNumPiecesEachPlayer_dimensions.
Qed.

Lemma updateProp_size_fits (x y : Z) (g : Game) :
  fits_both_dimensions (snd (updateProp_size x y g)).
Proof.
  rewrite updateProp_size_eq. unfold fits_both_dimensions. cbn.
  rewrite getSize_updateSize. cbn.
  destruct ((x <? winLength g) || (y <? winLength g)) eqn:Hsmall.
  - lia.
  - apply orb_false_iff in Hsmall. rewrite !Z.ltb_ge in Hsmall. lia.
Qed.

Lemma updateProp_winLength_fits (len : Z) (g : Game) :
  fits_one_dimension g ->
  fits_one_dimension (snd (updateProp_winLength len g)).
Proof.
  unfold updateProp_winLength, fits_one_dimension, getBoard.
  destruct (_ || _) eqn:Hfit; cbn; [intros _ | auto].
  apply orb_true_iff in Hfit. rewrite !Z.geb_le in Hfit. lia.
Qed.

Lemma fits_both_one (g : Game) :
  fits_both_dimensions g -> fits_one_dimension g.
Proof. unfold fits_both_dimensions, fits_one_dimension. lia. Qed.

Lemma same_dimensions_both (g g' : Game) :
  same_dimensions g g' -> fits_both_dimensions g -> fits_both_dimensions g'.
Proof.
  unfold fits_both_dimensions. intros [Hlen Hsize]. now rewrite Hlen, Hsize.
Qed.

Lemma same_dimensions_one (g g' : Game) :
  same_dimensions g g' -> fits_one_dimension g -> fits_one_dimension g'.
Proof.
  unfold fits_one_dimension. intros [Hlen Hsize]. now rewrite Hlen, Hsize.
Qed.

(** Every call that does not end in the winLength setter either resizes
    the board, and then winLength fits both dimensions, or leaves
    winLength and the size of the board alone. *)
Lemma exec_dimensions (c : Call) (w : World) :
  is_winLength_update c = false ->
  fits_both_dimensions (this (exec c w))
  \/ same_dimensions (this w) (this (exec c w)).
Proof.
  intros Hc.
  destruct c as [prop arg | x y | len | b | num | b | num | | p | | |
                 posX posY | x y | | ]; cbn [exec]; try discriminate Hc.
  - unfold updateGameConfig.
    destruct (negb _ && _); [| right; split; reflexivity].
    destruct prop as [[ | | | | ] | s]; try discriminate Hc.
    + left. apply updateProp_size_fits.
    + right. split; reflexivity.
    + right. apply updateProp_numPieces_dimensions.
    + right. split; reflexivity.
    + right. split; reflexivity.
  - left. apply updateProp_size_fits.
  - right. split; reflexivity.
  - right. apply updateProp_numPieces_dimensions.
  - right. split; reflexivity.
  - right. apply updateNumPiecesEachPlayer_dimensions.
  - right. apply readyGame_dimensions.
  - right. apply resetMatch_dimensions.
  - right. split; reflexivity.
  - right. apply nextGame_dimensions.
  - right. apply updateGameStateByLastMove_dimensions.
  - right. apply playerMakeMove_dimensions.
  - right. rewrite swapTurns_other. split; reflexivity.
  - right. rewrite swapFirstTurn_other. split; reflexivity.
Qed.

Lemma exec_fits_one_dimension (c : Call) (w : World) :
  fits_one_dimension (this w) -> fits_one_dimension (this (exec c w)).
Proof.
  intros Hfits.
  destruct (is_winLength_update c) eqn:Hc.
  - destruct c as [[[ | | | | ] | s] arg | | len | | | | | | | | | | | | ];
      try discriminate Hc; cbn [exec].
    + unfold updateGameConfig.
      destruct (negb _ && _); [| exact Hfits].
      now apply updateProp_winLength_fits.
    + now apply updateProp_winLength_fits.
  - destruct (exec_dimensions c w Hc) as [Hboth | Hsame].
    + now apply fits_both_one.
    + now apply (same_dimensions_one _ _ Hsame).
Qed.

(** C4, as the code has it: a WIN_LENGTH update accepts a length that
    fits one dimension of the board, so what every call preserves, and
    what holds in every state reached from a game that starts with it, is
    winLength <= max(boardSize.x, boardSize.y); winLength <=
    min(boardSize.x, boardSize.y) is preserved by every call that does
    not end in the winLength setter. *)
Theorem C4_winLength_fits_the_board (w : World) :
  (forall calls : list Call,
      fits_one_dimension (this w) ->
      fits_one_dimension (this (run calls w)))
  /\ (forall c : Call,
         is_winLength_update c = false ->
         fits_both_dimensions (this w) ->
         fits_both_dimensions (this (exec c w))).
Proof.
  split.
  - intros calls. revert w.
    induction calls as [| c calls IH]; intros w Hfits; [exact Hfits |].
    cbn [run fold_left]. apply IH. now apply exec_fits_one_dimension.
  - intros c Hc Hfits.
    destruct (exec_dimensions c w Hc) as [Hboth | Hsame]; [exact Hboth |].
    now apply (same_dimensions_both _ _ Hsame).
Qed.

End GameProperties.

(** * The properties at work on the collaborators of [Collaborators] *)

Section OnTheCollaborators.

Import Collaborators.

Lemma grid_getSize_updateSize (x y : Z) (b : GridBoard) :
  getSize (updateSize x y b) = Size.mk x y.
Proof. reflexivity. Qed.

Lemma grid_getSize_resetBoard (b : GridBoard) :
  getSize (resetBoard b) = getSize b.
Proof. reflexivity. Qed.

Lemma grid_getSize_placeMark (x y : Z) (r : Role.t) (b : GridBoard) :
  getSize (snd (placeMark x y r b)) = getSize b.
Proof.
  cbn. unfold grid_placeMark. destruct (_ && _); reflexivity.
Qed.

Lemma grid_placeMark_refused (x y : Z) (r : Role.t) (b : GridBoard) :
  fst (placeMark x y r b) = false -> snd (placeMark x y r b) = b.
Proof.
  cbn. unfold grid_placeMark. destruct (_ && _); [discriminate | reflexivity].
Qed.

Lemma plain_score_addScore (amount : Q) (p : PlainPlayer) :
  (score (addScore amount p) == score p + amount)%Q.
Proof. apply Qeq_refl. Qed.

Lemma plain_score_resetPlayerMoveHistory (p : PlainPlayer) :
  (score (resetPlayerMoveHistory p) == score p)%Q.
Proof. apply Qeq_refl. Qed.

Lemma plain_moveHistory_updatePlayerMove (x y : Z) (p : PlainPlayer) :
  In (x, y) (moveHistory (updatePlayerMove x y p)).
Proof. cbn. apply in_or_app. right. now left. Qed.

Lemma plain_moveHistory_resetPlayerMoveHistory (p : PlainPlayer) :
  moveHistory (resetPlayerMoveHistory p) = [].
Proof. reflexivity. Qed.

(** A game in play refuses a SIZE update; a fresh game refuses a
    selector it does not know. *)
Lemma witness_C1_game_in_play :
  (match_in_progress oneMoveIn
   /\ updateGameConfig (Sel GameProp.SIZE) (mkArg 4 4 0 false 0 false)
                       (mkWorld oneMoveIn Undeclared)
      = (Normal false, mkWorld oneMoveIn Undeclared))
  /\ updateGameConfig (NotAProp "colour") (mkArg 4 4 0 false 0 false)
                      fresh3x3
     = (Normal false, fresh3x3).
Proof.
  assert (Hmatch : match_in_progress oneMoveIn) by (left; reflexivity).
  split; [split; [exact Hmatch |] |].
  - apply (C1_updateGameConfig_refuses
             (Sel GameProp.SIZE) (mkArg 4 4 0 false 0 false)
             (mkWorld oneMoveIn Undeclared)).
    left. exact Hmatch.
  - apply (C1_updateGameConfig_refuses
             (NotAProp "colour") (mkArg 4 4 0 false 0 false) fresh3x3).
    right. exists "colour"%string. reflexivity.
Defined.

(** Scenario A: Player 1 completes the row x = 0. *)
Lemma witness_C2_scenarioA :
  checkWinner 0 2 scenarioA = Some [(0, 0); (0, 1); (0, 2)]
  /\ winner scenarioA_finished = PlayerValue RefPlayer1
  /\ winner scenarioA_finished <> RoleValue Role.P1
  /\ winCells scenarioA_finished = [(0, 0); (0, 1); (0, 2)]
  /\ (score (player1 scenarioA_finished) == score (player1 scenarioA) + 1)%Q
  /\ player2 scenarioA_finished = player2 scenarioA
  /\ totalGamesPlayed scenarioA_finished = 1
  /\ state scenarioA_finished = GameState.FINISHED.
Proof.
  assert (Hline : checkWinner 0 2 scenarioA = Some [(0, 0); (0, 1); (0, 2)])
    by (vm_compute; reflexivity).
  destruct (C2_win_resolution plain_score_addScore 0 2 scenarioA _ Hline)
    as (Hwinner & Hrole & Hcells & _ & Hscore & Hother & Htotal & Hstate).
  exact (conj Hline
          (conj Hwinner
             (conj (Hrole Role.P1)
                (conj Hcells
                   (conj Hscore (conj Hother (conj Htotal Hstate))))))).
Defined.

(** The first move of a game leaves squares to play: the turn passes.
    Scenario B: the ninth move fills the board without a line: a draw. *)
Lemma witness_C3_continue_and_draw :
  (checkWinner 0 0 firstMoveMade = None
   /\ checkValidMoves firstMoveMade = true
   /\ currentPlayer firstMoveMade = RefPlayer1
   /\ currentPlayer oneMoveIn = RefPlayer2
   /\ state oneMoveIn = GameState.ONGOING
   /\ totalGamesPlayed oneMoveIn = totalGamesPlayed firstMoveMade)
  /\ (checkWinner 2 2 scenarioB = None
      /\ checkValidMoves scenarioB = false
      /\ winner (updateGameStateByLastMove 2 2 scenarioB)
         = RoleValue Role.NONE
      /\ (score (player1 (updateGameStateByLastMove 2 2 scenarioB))
          == score (player1 scenarioB) + (1 # 2))%Q
      /\ (score (player2 (updateGameStateByLastMove 2 2 scenarioB))
          == score (player2 scenarioB) + (1 # 2))%Q
      /\ totalGamesPlayed (updateGameStateByLastMove 2 2 scenarioB) = 1
      /\ state (updateGameStateByLastMove 2 2 scenarioB)
         = GameState.FINISHED).
Proof.
  assert (Hline1 : checkWinner 0 0 firstMoveMade = None)
    by (vm_compute; reflexivity).
  assert (Hmoves1 : checkValidMoves firstMoveMade = true)
    by (vm_compute; reflexivity).
  assert (Hline2 : checkWinner 2 2 scenarioB = None)
    by (vm_compute; reflexivity).
  assert (Hmoves2 : checkValidMoves scenarioB = false)
    by (vm_compute; reflexivity).
  destruct (C3_no_line_resolution plain_score_addScore 0 0 firstMoveMade
                                  Hline1) as [Hcontinue _].
  destruct (Hcontinue Hmoves1) as (Hturn & _ & Hstate1 & Htotal1 & _).
  destruct (C3_no_line_resolution plain_score_addScore 2 2 scenarioB Hline2)
    as [_ Hdraw].
  destruct (Hdraw Hmoves2) as (Hwinner & Hp1 & Hp2 & Htotal2 & Hstate2).
  split.
  - exact (conj Hline1
             (conj Hmoves1
                (conj eq_refl (conj Hturn (conj Hstate1 Htotal1))))).
  - exact (conj Hline2
             (conj Hmoves2
                (conj Hwinner
                   (conj Hp1 (conj Hp2 (conj Htotal2 Hstate2)))))).
Defined.

(** A 3x3 game resized to 3x5 and then given winLength 5: both updates
    succeed and winLength exceeds the smaller dimension. *)
Lemma counterexample_C4_three_by_five :
  fits_both_dimensions (this fresh3x3)
  /\ fst (updateGameConfig (Sel GameProp.SIZE) (mkArg 3 5 0 false 0 false)
                           fresh3x3) = Normal true
  /\ fst (updateGameConfig
            (Sel GameProp.WIN_LENGTH) (mkArg 0 0 5 false 0 false)
            (snd (updateGameConfig
                    (Sel GameProp.SIZE) (mkArg 3 5 0 false 0 false)
                    fresh3x3))) = Normal true
  /\ getSize (board (this (run resize_then_lengthen fresh3x3))) = Size.mk 3 5
  /\ winLength (this (run resize_then_lengthen fresh3x3)) = 5
  /\ ~ fits_both_dimensions (this (run resize_then_lengthen fresh3x3)).
Proof.
  repeat split; try reflexivity.
  - vm_compute. discriminate.
  - vm_compute. intros Hle. now apply Hle.
Qed.

(** The same two updates keep winLength within the larger dimension; a
    SIZE update of a fitting game keeps it within both. *)
Lemma witness_C4_three_by_five :
  (fits_one_dimension (this fresh3x3)
   /\ fits_one_dimension (this (run resize_then_lengthen fresh3x3)))
  /\ (fits_both_dimensions (this fresh3x3)
      /\ fits_both_dimensions
           (this (exec (Call_updateGameConfig
                          (Sel GameProp.SIZE) (mkArg 3 5 0 false 0 false))
                       fresh3x3))).
Proof.
  assert (Hone : fits_one_dimension (this fresh3x3))
    by (vm_compute; discriminate).
  assert (Hboth : fits_both_dimensions (this fresh3x3))
    by (vm_compute; discriminate).
  destruct (C4_winLength_fits_the_board
              grid_getSize_updateSize grid_getSize_resetBoard
              grid_getSize_placeMark fresh3x3) as [Hrun Hexec].
  split.
  - exact (conj Hone (Hrun resize_then_lengthen Hone)).
  - exact (conj Hboth
             (Hexec (Call_updateGameConfig
                       (Sel GameProp.SIZE) (mkArg 3 5 0 false 0 false))
                    eq_refl Hboth)).
Defined.

(** Scenario C: winLength 5 on a 4x4 board is refused and winLength
    stays 4.  On a 3x5 board winLength 5 fits one dimension: it is
    accepted and the winLength read after the call is 5. *)
Lemma witness_C5_scenarioC :
  (gate_open (this fresh4x4)
   /\ getSize (board (this fresh4x4)) = Size.mk 4 4
   /\ updateGameConfig (Sel GameProp.WIN_LENGTH) (mkArg 0 0 5 false 0 false)
                       fresh4x4
      = (Normal false, fresh4x4)
   /\ getWinningLineLength
        (this (snd (updateGameConfig (Sel GameProp.WIN_LENGTH)
                                     (mkArg 0 0 5 false 0 false) fresh4x4)))
      = 4)
  /\ (gate_open (this Scenarios.threeByFive)
      /\ getSize (board (this Scenarios.threeByFive)) = Size.mk 3 5
      /\ getWinningLineLength (this Scenarios.threeByFive) = 3
      /\ fst (updateGameConfig (Sel GameProp.WIN_LENGTH)
                               (mkArg 0 0 5 false 0 false)
                               Scenarios.threeByFive)
         = Normal true
      /\ getWinningLineLength
           (this (snd (updateGameConfig (Sel GameProp.WIN_LENGTH)
                                        (mkArg 0 0 5 false 0 false)
                                        Scenarios.threeByFive)))
         = 5).
Proof.
  assert (Hopen4 : gate_open (this fresh4x4)).
  { split; [discriminate | vm_compute; discriminate]. }
  assert (Hopen3 : gate_open (this Scenarios.threeByFive)).
  { split; vm_compute; discriminate. }
  assert (Hfits : Size.x (getSize (board (this Scenarios.threeByFive)))
                  >= arg_len (mkArg 0 0 5 false 0 false)
                  \/ Size.y (getSize (board (this Scenarios.threeByFive)))
                     >= arg_len (mkArg 0 0 5 false 0 false)).
  { right. vm_compute. discriminate. }
  destruct (C5_winLength_update (mkArg 0 0 5 false 0 false) fresh4x4 Hopen4)
    as (_ & _ & _ & Hscenario).
  destruct (Hscenario eq_refl eq_refl) as [Hrefused Hkept].
  destruct (C5_winLength_update (mkArg 0 0 5 false 0 false)
                                Scenarios.threeByFive Hopen3)
    as (Haccepted & _ & Htrue & _).
  destruct (Haccepted Hfits) as (_ & Hread & _).
  split.
  - refine (conj Hopen4 (conj eq_refl (conj Hrefused _))).
    vm_compute in Hkept |- *. exact Hkept.
  - refine (conj Hopen3 (conj _ (conj _ (conj _ _)))).
    + vm_compute. reflexivity.
    + vm_compute. reflexivity.
    + apply Htrue. exact Hfits.
    + vm_compute in Hread |- *. exact Hread.
Defined.

(** A 3x3 board with winLength 3 resized to 2x5: winLength becomes 2. *)
Lemma witness_C6_two_by_five :
  gate_open (this fresh3x3)
  /\ fst (updateGameConfig (Sel GameProp.SIZE) (mkArg 2 5 0 false 0 false)
                           fresh3x3) = Normal true
  /\ getSize (board (this (snd (updateGameConfig
                                  (Sel GameProp.SIZE)
                                  (mkArg 2 5 0 false 0 false) fresh3x3))))
     = Size.mk 2 5
  /\ winLength (this (snd (updateGameConfig
                             (Sel GameProp.SIZE)
                             (mkArg 2 5 0 false 0 false) fresh3x3)))
     = Z.min 2 5.
Proof.
  assert (Hopen : gate_open (this fresh3x3)).
  { split; [discriminate | vm_compute; discriminate]. }
  destruct (C6_size_update grid_getSize_updateSize
                           (mkArg 2 5 0 false 0 false) fresh3x3 Hopen)
    as (Htrue & _ & Hsize & Hclamp & _).
  refine (conj Hopen (conj Htrue (conj Hsize (Hclamp _)))).
  left. reflexivity.
Defined.

(** A fresh 3x3 game, no global [game]: NUM_PIECES with num = 2 throws. *)
Lemma witness_C7_fresh_game :
  gate_open (this fresh3x3)
  /\ Size.x (getSize (board (this fresh3x3)))
     * Size.y (getSize (board (this fresh3x3))) >= 2
  /\ updateGameConfig (Sel GameProp.NUM_PIECES) (mkArg 0 0 0 false 2 false)
                      fresh3x3
     = (Throw (ReferenceError "game"), fresh3x3)
  /\ numPieces (this fresh3x3) = 3.
Proof.
  assert (Hopen : gate_open (this fresh3x3)).
  { split; [discriminate | vm_compute; discriminate]. }
  assert (Hcells : Size.x (getSize (board (this fresh3x3)))
                   * Size.y (getSize (board (this fresh3x3))) >= 2)
    by (vm_compute; discriminate).
  destruct (C7_numPieces_update (mkArg 0 0 0 false 2 false) fresh3x3 Hopen)
    as [_ Henough].
  exact (conj Hopen (conj Hcells (conj (Henough Hcells) eq_refl))).
Defined.

(** One move into a game: (0,0) is taken and (5,5) is off the board, so
    both are refused; (1,1) is placed and recorded for Player 2. *)
Lemma witness_C8_one_move_in :
  (fst (placeMark 0 0 Role.P2 (board oneMoveIn)) = false
   /\ playerMakeMove 0 0 oneMoveIn = (false, oneMoveIn))
  /\ (fst (placeMark 5 5 Role.P2 (board oneMoveIn)) = false
      /\ playerMakeMove 5 5 oneMoveIn = (false, oneMoveIn))
  /\ (state oneMoveIn = GameState.ONGOING
      /\ fst (placeMark 1 1 Role.P2 (board oneMoveIn)) = true
      /\ fst (playerMakeMove 1 1 oneMoveIn) = true
      /\ In (1, 1) (moveHistory (player2 (snd (playerMakeMove 1 1 oneMoveIn))))
      /\ player1 (snd (playerMakeMove 1 1 oneMoveIn)) = player1 oneMoveIn).
Proof.
  assert (Htaken : fst (placeMark 0 0 Role.P2 (board oneMoveIn)) = false)
    by (vm_compute; reflexivity).
  assert (Hoff : fst (placeMark 5 5 Role.P2 (board oneMoveIn)) = false)
    by (vm_compute; reflexivity).
  assert (Hfree : fst (placeMark 1 1 Role.P2 (board oneMoveIn)) = true)
    by (vm_compute; reflexivity).
  assert (Hstate : state oneMoveIn = GameState.ONGOING)
    by (vm_compute; reflexivity).
  pose proof (C8_playerMakeMove
                grid_placeMark_refused plain_moveHistory_updatePlayerMove)
    as Hmove.
  destruct (Hmove 0 0 oneMoveIn) as [Hrefused0 _].
  destruct (Hmove 5 5 oneMoveIn) as [Hrefused5 _].
  destruct (Hmove 1 1 oneMoveIn) as [_ Hplaced].
  destruct (Hplaced Hstate Hfree) as (Htrue & _ & _ & Hin & Hother).
  split; [| split].
  - exact (conj Htaken (Hrefused0 (or_intror Htaken))).
  - exact (conj Hoff (Hrefused5 (or_intror Hoff))).
  - exact (conj Hstate (conj Hfree (conj Htrue (conj Hin Hother)))).
Defined.

(** Scenario A, finished, made ready again: Player 1 moves first and has
    an empty history, Player 2 keeps the two moves of the game before. *)
Lemma witness_C9_after_scenarioA :
  firstTurnPlayer scenarioA_finished = RefPlayer1
  /\ moveHistory (player1 scenarioA_finished) = [(0, 0); (0, 1); (0, 2)]
  /\ moveHistory (player1 (readyGame scenarioA_finished)) = []
  /\ moveHistory (player2 (readyGame scenarioA_finished)) = [(1, 0); (1, 1)]
  /\ (score (player1 (readyGame scenarioA_finished))
      == score (player1 scenarioA_finished))%Q
  /\ totalGamesPlayed (readyGame scenarioA_finished) = 1
  /\ winner (readyGame scenarioA_finished) = RoleValue Role.NONE
  /\ winCells (readyGame scenarioA_finished) = []
  /\ state (readyGame scenarioA_finished) = GameState.READY.
Proof.
  destruct (C9_readyGame plain_score_resetPlayerMoveHistory
                         plain_moveHistory_resetPlayerMoveHistory
                         scenarioA_finished)
    as (_ & _ & Hwinner & Hcells & _ & Hcleared & Hother & Hscore & _
        & Htotal & _ & Hstate & _).
  refine (conj eq_refl
            (conj eq_refl
               (conj Hcleared
                  (conj _
                     (conj Hscore
                        (conj Htotal (conj Hwinner (conj Hcells Hstate)))))))).
  change (player2 (readyGame scenarioA_finished))
    with (deref (other_player (firstTurnPlayer scenarioA_finished))
                (readyGame scenarioA_finished)).
  rewrite Hother. reflexivity.
Defined.

(** Scenario A: Player 1 wins and is still the current player; scenario
    B: the draw leaves Player 1, who moved last, the current player. *)
Lemma witness_C10_scenarios :
  (checkWinner 0 2 scenarioA = Some [(0, 0); (0, 1); (0, 2)]
   /\ currentPlayer scenarioA = RefPlayer1
   /\ getCurrentPlayer scenarioA_finished = RefPlayer1
   /\ getGameWinner scenarioA_finished = PlayerValue RefPlayer1)
  /\ (checkWinner 2 2 scenarioB = None
      /\ checkValidMoves scenarioB = false
      /\ getCurrentPlayer (updateGameStateByLastMove 2 2 scenarioB)
         = currentPlayer scenarioB).
Proof.
  assert (Hline : checkWinner 0 2 scenarioA = Some [(0, 0); (0, 1); (0, 2)])
    by (vm_compute; reflexivity).
  assert (Hnone : checkWinner 2 2 scenarioB = None)
    by (vm_compute; reflexivity).
  assert (Hfull : checkValidMoves scenarioB = false)
    by (vm_compute; reflexivity).
  destruct (C10_currentPlayer_frame 0 2 scenarioA) as [Hwin _].
  destruct (Hwin _ Hline) as (_ & Hsame & Hwinner & _).
  destruct (C10_currentPlayer_frame 2 2 scenarioB) as (_ & Hdraw & _).
  destruct (Hdraw Hnone Hfull) as [_ Hkept].
  split.
  - exact (conj Hline
             (conj eq_refl
                (conj Hsame (eq_trans Hwinner (f_equal PlayerValue Hsame))))).
  - exact (conj Hnone (conj Hfull Hkept)).
Defined.

End OnTheCollaborators.

(** * Further properties of the game life cycle *)

Section LifeCycleProperties.

Context {Board Cells Player : Type}.
Context {board_ops : BoardOps Board Cells}.
Context {player_ops : PlayerOps Player}.
Context {detector : LineDetector Cells}.

Abbreviation Game := (Game Board Player).
Abbreviation World := (World Board Player).

(** Board: clearing the grid or placing a mark does not resize it. *)
Hypothesis getSize_resetBoard :
  forall b : Board, getSize (resetBoard b) = getSize b.
Hypothesis getSize_placeMark :
  forall x y r (b : Board), getSize (snd (placeMark x y r b)) = getSize b.

(** Player: a new player and a player whose score was reset have score 0;
    the score accumulates; the history methods leave the score. *)
Hypothesis score_newPlayer :
  forall n s r, (score (newPlayer n s r : Player) == 0)%Q.
Hypothesis score_resetScore :
  forall p : Player, (score (resetScore p) == 0)%Q.
Hypothesis score_addScore :
  forall amount (p : Player),
    (score (addScore amount p) == score p + amount)%Q.
Hypothesis score_resetPlayerMoveHistory :
  forall p : Player, (score (resetPlayerMoveHistory p) == score p)%Q.
Hypothesis score_updatePlayerMove :
  forall x y (p : Player), (score (updatePlayerMove x y p) == score p)%Q.

(** Player: a cleared history is empty. *)
Hypothesis moveHistory_resetPlayerMoveHistory :
  forall p : Player, moveHistory (resetPlayerMoveHistory p) = [].

(** ** The gate *)

Lemma isDuringMatch_gate_test (g : Game) :
  isDuringMatch g
  = negb (negb (GameState.eqb (state g) GameState.ONGOING)
          && (totalGamesPlayed g <=? 0)).
Proof. unfold isDuringMatch. destruct (negb _ && _); reflexivity. Qed.

(** X1: isDuringMatch and the guard of updateGameConfig are the same
    test: isDuringMatch returns true exactly when the state is ONGOING or
    totalGamesPlayed > 0, then every updateGameConfig call is refused
    without a change, and when it returns false a SIZE update is
    accepted. *)
Theorem isDuringMatch_is_the_gate (arg : Arg) (w : World) :
  (isDuringMatch (this w) = true <-> match_in_progress (this w))
  /\ (isDuringMatch (this w) = true ->
      forall prop, updateGameConfig prop arg w = (Normal false, w))
  /\ (isDuringMatch (this w) = false ->
      fst (updateGameConfig (Sel GameProp.SIZE) arg w) = Normal true).
Proof.
  split; [apply isDuringMatch_spec | split].
  - intros Hduring prop. rewrite isDuringMatch_gate_test in Hduring.
    apply negb_true_iff in Hduring.
    unfold updateGameConfig. rewrite Hduring. reflexivity.
  - intros Hduring. rewrite isDuringMatch_gate_test in Hduring.
    apply negb_false_iff in Hduring.
    unfold updateGameConfig. rewrite Hduring. reflexivity.
Qed.

(** X2: with the gate open, an IS_LIMITED_PIECES or IS_FIFO_ORDER update
    returns true, the getter of the flag then returns the value given,
    and the call changes no other field. *)
Theorem flag_updates_round_trip (arg : Arg) (w : World) :
  gate_open (this w) ->
  let limited := updateGameConfig (Sel GameProp.IS_LIMITED_PIECES) arg w in
  let fifo := updateGameConfig (Sel GameProp.IS_FIFO_ORDER) arg w in
  (fst limited = Normal true
   /\ getIsLimitedPieces (this (snd limited)) = arg_isLimited arg
   /\ snd limited
      = with_this (set_isLimitedPieces (arg_isLimited arg) (this w)) w)
  /\ (fst fifo = Normal true
      /\ getIsFifoOrder (this (snd fifo)) = arg_isFifo arg
      /\ snd fifo = with_this (set_isFifoOrder (arg_isFifo arg) (this w)) w).
Proof.
  intros Hopen. cbv zeta. unfold updateGameConfig.
  apply gate_test_true in Hopen. rewrite Hopen.
  repeat split.
Qed.

(** X3: a WIN_LENGTH update has no lower bound: with the gate open, a
    length of zero or less is accepted on every board that has a
    dimension of zero or more, and becomes the winLength. *)
Theorem winLength_update_has_no_lower_bound (arg : Arg) (w : World) :
  gate_open (this w) ->
  arg_len arg <= 0 ->
  0 <= Size.x (getSize (board (this w)))
  \/ 0 <= Size.y (getSize (board (this w))) ->
  let result := updateGameConfig (Sel GameProp.WIN_LENGTH) arg w in
  fst result = Normal true
  /\ getWinningLineLength (this (snd result)) = arg_len arg.
Proof.
  intros Hopen Hlen Hsize. cbv zeta. unfold updateGameConfig.
  apply gate_test_true in Hopen. rewrite Hopen.
  unfold on_this, updateProp_winLength, getBoard.
  replace ((Size.x (getSize (board (this w))) >=? arg_len arg)
           || (Size.y (getSize (board (this w))) >=? arg_len arg))
    with true.
  - split; reflexivity.
  - symmetry. apply orb_true_iff. rewrite !Z.geb_le. lia.
Qed.

(** Whatever a configuration call does, it does to the configuration. *)
Lemma updateProp_numPieces_bookkeeping (num : Z) (w : World) :
  bookkeeping (this (snd (updateProp_numPieces num w)))
  = bookkeeping (this w).
Proof.
  unfold updateProp_numPieces.
  destruct (_ >=? _); [| reflexivity].
  destruct (global_game w); cbn [snd this]; try reflexivity.
  unfold updateNumPiecesEachPlayer. destruct (negb _); reflexivity.
Qed.

Lemma updateGameConfig_bookkeeping (prop : Selector) (arg : Arg)
      (w : World) :
  bookkeeping (this (snd (updateGameConfig prop arg w)))
  = bookkeeping (this w).
Proof.
  unfold updateGameConfig.
  destruct (negb _ && _); [| reflexivity].
  destruct prop as [[ | | | | ] | s]; try reflexivity.
  - unfold on_this. rewrite updateProp_size_eq. reflexivity.
  - unfold on_this, updateProp_winLength. destruct (_ || _); reflexivity.
  - apply updateProp_numPieces_bookkeeping.
Qed.

Lemma configuration_call_bookkeeping (c : Call) (w : World) :
  is_configuration_call c = true ->
  bookkeeping (this (exec c w)) = bookkeeping (this w).
Proof.
  intros Hc.
  destruct c as [prop arg | x y | len | b | num | b | num | | p | | |
                 posX posY | x y | | ];
    try discriminate Hc; cbn [exec].
  - apply updateGameConfig_bookkeeping.
  - unfold on_this. rewrite updateProp_size_eq. reflexivity.
  - unfold on_this, updateProp_winLength. destruct (_ || _); reflexivity.
  - reflexivity.
  - apply updateProp_numPieces_bookkeeping.
  - reflexivity.
  - cbn. unfold updateNumPiecesEachPlayer. destruct (negb _); reflexivity.
Qed.

(** X4: updateGameConfig changes nothing but the configuration: the two
    players, both turn references, winner, winCells, totalGamesPlayed
    and the state are the same after the call, whatever the selector,
    the arguments and the outcome, so a configuration update never opens
    or closes the gate. *)
Theorem updateGameConfig_keeps_the_bookkeeping (prop : Selector)
        (arg : Arg) (w : World) :
  let w' := snd (updateGameConfig prop arg w) in
  bookkeeping (this w') = bookkeeping (this w)
  /\ isDuringMatch (this w') = isDuringMatch (this w).
Proof.
  cbv zeta.
  pose proof (updateGameConfig_bookkeeping prop arg w) as Hsame.
  split; [exact Hsame |].
  unfold bookkeeping in Hsame. injection Hsame as _ _ _ _ _ _ Htotal Hstate.
  unfold isDuringMatch. now rewrite Htotal, Hstate.
Qed.

(** ** Turns *)

(** X5: swapTurns and swapFirstTurn return the player they make current
    (first), who is never the one it was before, and change no other
    field: every field but currentPlayer (firstTurnPlayer) reads after
    the call as before it, and swapping twice gives the game back as it
    was. *)
Theorem swaps_alternate (g : Game) :
  (fst (swapTurns g) = other_player (currentPlayer g)
   /\ getCurrentPlayer (snd (swapTurns g)) = fst (swapTurns g)
   /\ fst (swapTurns g) <> currentPlayer g
   /\ snd (swapTurns (snd (swapTurns g))) = g
   /\ (let g' := snd (swapTurns g) in
       (winLength g', isLimitedPieces g', numPieces g', isFifoOrder g',
        board g', player1 g', player2 g', winner g', winCells g',
        firstTurnPlayer g', totalGamesPlayed g', state g')
       = (winLength g, isLimitedPieces g, numPieces g, isFifoOrder g,
          board g, player1 g, player2 g, winner g, winCells g,
          firstTurnPlayer g, totalGamesPlayed g, state g)))
  /\ (fst (swapFirstTurn g) = other_player (firstTurnPlayer g)
      /\ getPlayerToPlayFirst (snd (swapFirstTurn g)) = fst (swapFirstTurn g)
      /\ fst (swapFirstTurn g) <> firstTurnPlayer g
      /\ snd (swapFirstTurn (snd (swapFirstTurn g))) = g
      /\ (let g' := snd (swapFirstTurn g) in
          (winLength g', isLimitedPieces g', numPieces g', isFifoOrder g',
           board g', player1 g', player2 g', winner g', winCells g',
           currentPlayer g', totalGamesPlayed g', state g')
          = (winLength g, isLimitedPieces g, numPieces g, isFifoOrder g,
             board g, player1 g, player2 g, winner g, winCells g,
             currentPlayer g, totalGamesPlayed g, state g))).
Proof.
  cbv zeta. rewrite !swapTurns_other, !swapFirstTurn_other. cbn [fst snd].
  split;
    (split; [reflexivity | split; [reflexivity | split; [| split]]]).
  - apply other_player_neq.
  - destruct g as [? ? ? ? ? ? ? mover ? ? ? ? ?]. destruct mover; reflexivity.
  - reflexivity.
  - apply other_player_neq.
  - destruct g as [? ? ? ? ? ? ? ? ? ? first ? ?]. destruct first; reflexivity.
  - reflexivity.
Qed.

(** X6: playerMakeMove never passes the turn or ends the game: the
    current player, the first-turn player, winner, winCells,
    totalGamesPlayed, the state and the four configuration fields are
    the same after the call, so a second move made before the outcome is
    resolved is placed for the same player. *)
Theorem playerMakeMove_keeps_the_turn (x y : Z) (g : Game) :
  let g' := snd (playerMakeMove x y g) in
  currentPlayer g' = currentPlayer g
  /\ firstTurnPlayer g' = firstTurnPlayer g
  /\ winner g' = winner g
  /\ winCells g' = winCells g
  /\ totalGamesPlayed g' = totalGamesPlayed g
  /\ state g' = state g
  /\ (winLength g', isLimitedPieces g', numPieces g', isFifoOrder g')
     = (winLength g, isLimitedPieces g, numPieces g, isFifoOrder g).
Proof.
  cbv zeta. unfold playerMakeMove.
  destruct (negb _); [repeat split |].
  destruct (placeMark x y (role (deref (currentPlayer g) g)) (board g))
    as [placed b].
  destruct g as [? ? ? ? ? ? ? mover ? ? ? ? ?].
  destruct placed, mover; repeat split.
Qed.

(** ** The life cycle *)

Lemma readyGame_eq (g : Game) :
  readyGame g
  = set_state GameState.READY
      (set_winCells []
         (set_winner (RoleValue Role.NONE)
            (call_on (firstTurnPlayer g) resetPlayerMoveHistory
               (set_currentPlayer (firstTurnPlayer g)
                  (set_board (resetBoard (board g)) g))))).
Proof.
  destruct g as [? ? ? ? ? ? ? ? ? ? first ? ?]. destruct first; reflexivity.
Qed.

(** X7: nextGame hands the first turn to the other player and readies
    the game: the state is READY, the current player is the new
    first-turn player, whose history is empty, winner is Role.NONE,
    winCells is empty, and totalGamesPlayed and both scores are as
    before; the player who moved first in the game before keeps the
    whole Player object. *)
Theorem nextGame_alternates_first_turn (g : Game) :
  let g' := nextGame g in
  firstTurnPlayer g' = other_player (firstTurnPlayer g)
  /\ firstTurnPlayer g' <> firstTurnPlayer g
  /\ currentPlayer g' = firstTurnPlayer g'
  /\ state g' = GameState.READY
  /\ winner g' = RoleValue Role.NONE
  /\ winCells g' = []
  /\ moveHistory (deref (firstTurnPlayer g') g') = []
  /\ deref (firstTurnPlayer g) g' = deref (firstTurnPlayer g) g
  /\ (score (player1 g') == score (player1 g))%Q
  /\ (score (player2 g') == score (player2 g))%Q
  /\ totalGamesPlayed g' = totalGamesPlayed g.
Proof.
  cbv zeta. unfold nextGame. rewrite swapFirstTurn_other. cbn [snd].
  rewrite readyGame_eq.
  destruct g as [? ? ? ? ? ? ? ? ? ? first ? ?].
  destruct first; cbn; repeat split; try discriminate;
    solve [ apply moveHistory_resetPlayerMoveHistory
          | apply score_resetPlayerMoveHistory
          | apply Qeq_refl ].
Qed.

Lemma resetMatch_eq (p : PlayerRef) (g : Game) :
  resetMatch p g
  = set_state GameState.READY
      (set_winCells []
         (set_winner (RoleValue Role.NONE)
            (call_on p resetPlayerMoveHistory
               (set_currentPlayer p
                  (set_board (resetBoard (board g))
                     (set_totalGamesPlayed 0
                        (set_firstTurnPlayer p
                           (set_player2 (resetScore (player2 g))
                              (set_player1 (resetScore (player1 g))
                                           g))))))))).
Proof. unfold resetMatch. cbv zeta. rewrite readyGame_eq. reflexivity. Qed.

(** X8: resetMatch starts a new match: both scores are 0, so nobody
    leads, totalGamesPlayed is 0, the player given moves first and is
    the current player, the state is READY and the configuration is
    untouched; the gate is open again, whatever the state and the count
    of games were. *)
Theorem resetMatch_starts_a_new_match (p : PlayerRef) (g : Game) :
  let g' := resetMatch p g in
  (score (player1 g') == 0)%Q
  /\ (score (player2 g') == 0)%Q
  /\ totalGamesPlayed g' = 0
  /\ firstTurnPlayer g' = p
  /\ currentPlayer g' = p
  /\ state g' = GameState.READY
  /\ winner g' = RoleValue Role.NONE
  /\ winCells g' = []
  /\ (winLength g', isLimitedPieces g', numPieces g', isFifoOrder g')
     = (winLength g, isLimitedPieces g, numPieces g, isFifoOrder g)
  /\ isDuringMatch g' = false
  /\ getMatchLeadingPlayer g' = Role.NONE.
Proof.
  cbv zeta.
  assert (Hp1 : (score (player1 (resetMatch p g)) == 0)%Q).
  { rewrite resetMatch_eq.
    destruct p; cbn; [rewrite score_resetPlayerMoveHistory |];
      apply score_resetScore. }
  assert (Hp2 : (score (player2 (resetMatch p g)) == 0)%Q).
  { rewrite resetMatch_eq.
    destruct p; cbn; [| rewrite score_resetPlayerMoveHistory];
      apply score_resetScore. }
  assert (Hleader : getMatchLeadingPlayer (resetMatch p g) = Role.NONE).
  { unfold getMatchLeadingPlayer, score_gt.
    assert (H12 : Qle_bool (score (player1 (resetMatch p g)))
                           (score (player2 (resetMatch p g))) = true).
    { apply Qle_bool_iff. rewrite Hp1, Hp2. apply Qle_refl. }
    assert (H21 : Qle_bool (score (player2 (resetMatch p g)))
                           (score (player1 (resetMatch p g))) = true).
    { apply Qle_bool_iff. rewrite Hp1, Hp2. apply Qle_refl. }
    rewrite H12, H21. reflexivity. }
  assert (Hfields :
            totalGamesPlayed (resetMatch p g) = 0
            /\ firstTurnPlayer (resetMatch p g) = p
            /\ currentPlayer (resetMatch p g) = p
            /\ state (resetMatch p g) = GameState.READY
            /\ winner (resetMatch p g) = RoleValue Role.NONE
            /\ winCells (resetMatch p g) = []
            /\ (winLength (resetMatch p g), isLimitedPieces (resetMatch p g),
                numPieces (resetMatch p g), isFifoOrder (resetMatch p g))
               = (winLength g, isLimitedPieces g, numPieces g, isFifoOrder g)
            /\ isDuringMatch (resetMatch p g) = false).
  { rewrite resetMatch_eq. destruct p; repeat split. }
  destruct Hfields as (H1 & H2 & H3 & H4 & H5 & H6 & H7 & H8).
  exact (conj Hp1 (conj Hp2 (conj H1 (conj H2 (conj H3 (conj H4
           (conj H5 (conj H6 (conj H7 (conj H8 Hleader)))))))))).
Qed.

(** X9: startGame has no precondition: from every state it sets the
    state to ONGOING and changes nothing else; after it the gate is
    closed, and a move is accepted exactly when the board accepts the
    mark of the current player. *)
Theorem startGame_opens_play (x y : Z) (g : Game) :
  let g' := startGame g in
  state g' = GameState.ONGOING
  /\ g' = set_state GameState.ONGOING g
  /\ isDuringMatch g' = true
  /\ fst (playerMakeMove x y g')
     = fst (placeMark x y (role (deref (currentPlayer g) g)) (board g)).
Proof.
  cbv zeta. repeat split.
  unfold playerMakeMove, startGame. cbn.
  destruct g as [? ? ? ? ? ? ? mover ? ? ? ? ?]. cbn.
  destruct mover; cbn;
    match goal with
    | |- context [placeMark ?a ?b ?r ?bd] =>
        destruct (placeMark a b r bd) as [placed b']
    end; destruct placed; reflexivity.
Qed.

Lemma updateGameStateByLastMove_outcome (posX posY : Z) (g : Game) :
  let g' := updateGameStateByLastMove posX posY g in
  (state g' = GameState.ONGOING
   /\ totalGamesPlayed g' = totalGamesPlayed g
   /\ (winner g' = winner g))
  \/ (state g' = GameState.FINISHED
      /\ totalGamesPlayed g' = totalGamesPlayed g + 1
      /\ winner_is_none_or_player g').
Proof.
  cbv zeta. unfold winner_is_none_or_player.
  destruct (checkWinner posX posY g) as [line |] eqn:Hline.
  - rewrite (updateGameStateByLastMove_win _ _ _ _ Hline).
    right. destruct g as [? ? ? ? ? ? ? mover ? ? ? ? ?].
    destruct mover; repeat split; right; eexists; reflexivity.
  - destruct (checkValidMoves g) eqn:Hmoves.
    + rewrite (updateGameStateByLastMove_continue _ _ _ Hline Hmoves).
      left. repeat split.
    + rewrite (updateGameStateByLastMove_draw _ _ _ Hline Hmoves).
      right. repeat split. now left.
Qed.

(** X10: updateGameStateByLastMove ends in ONGOING with totalGamesPlayed
    unchanged or in FINISHED with totalGamesPlayed grown by 1, never in
    another state; if totalGamesPlayed was not negative, the gate is
    closed after the call either way. *)
Theorem outcome_resolution_closes_the_gate (posX posY : Z) (g : Game) :
  0 <= totalGamesPlayed g ->
  let g' := updateGameStateByLastMove posX posY g in
  ((state g' = GameState.ONGOING
    /\ totalGamesPlayed g' = totalGamesPlayed g)
   \/ (state g' = GameState.FINISHED
       /\ totalGamesPlayed g' = totalGamesPlayed g + 1))
  /\ isDuringMatch g' = true.
Proof.
  intros Htotal. cbv zeta.
  destruct (updateGameStateByLastMove_outcome posX posY g)
    as [(Hstate & Hsame & _) | (Hstate & Hgrown & _)].
  - split; [left; now split |].
    apply isDuringMatch_spec. now left.
  - split; [right; now split |].
    apply isDuringMatch_spec. right. lia.
Qed.

(** ** What every call keeps *)

Lemma run_invariant (P : Game -> Prop) :
  (forall c w, P (this w) -> P (this (exec c w))) ->
  forall calls w, P (this w) -> P (this (run calls w)).
Proof.
  intros Hstep calls.
  induction calls as [| c calls IH]; intros w Hw; [exact Hw |].
  cbn [run fold_left]. apply IH. now apply Hstep.
Qed.

Lemma playerMakeMove_bookkeeping (x y : Z) (g : Game) :
  state (snd (playerMakeMove x y g)) = state g
  /\ totalGamesPlayed (snd (playerMakeMove x y g)) = totalGamesPlayed g
  /\ winner (snd (playerMakeMove x y g)) = winner g.
Proof.
  unfold playerMakeMove.
  destruct (negb _); [repeat split |].
  destruct (placeMark x y (role (deref (currentPlayer g) g)) (board g))
    as [placed b].
  destruct g as [? ? ? ? ? ? ? mover ? ? ? ? ?].
  destruct placed, mover; repeat split.
Qed.

Lemma exec_state_total_winner (c : Call) (w : World) :
  let g := this w in
  let g' := this (exec c w) in
  (state g' = state g /\ totalGamesPlayed g' = totalGamesPlayed g
   /\ winner g' = winner g)
  \/ (state g' = GameState.READY
      /\ (totalGamesPlayed g' = totalGamesPlayed g
          \/ totalGamesPlayed g' = 0)
      /\ winner g' = RoleValue Role.NONE)
  \/ (state g' = GameState.ONGOING
      /\ totalGamesPlayed g' = totalGamesPlayed g /\ winner g' = winner g)
  \/ (state g' = GameState.FINISHED
      /\ totalGamesPlayed g' = totalGamesPlayed g + 1
      /\ winner_is_none_or_player g').
Proof.
  cbv zeta.
  destruct (is_configuration_call c) eqn:Hc.
  - left. pose proof (configuration_call_bookkeeping c w Hc) as Hsame.
    unfold bookkeeping in Hsame.
    injection Hsame as _ _ _ _ Hwinner _ Htotal Hstate. auto.
  - destruct c as [prop arg | x y | len | b | num | b | num | | p | | |
                   posX posY | x y | | ];
      try discriminate Hc; cbn [exec with_this this].
    + right; left. rewrite readyGame_eq.
      destruct (firstTurnPlayer (this w)); repeat split; now left.
    + right; left. unfold resetMatch. cbv zeta. rewrite readyGame_eq.
      destruct p; repeat split; now right.
    + right; right; left. repeat split.
    + right; left. unfold nextGame. rewrite swapFirstTurn_other, readyGame_eq.
      cbn [snd].
      destruct (this w) as [? ? ? ? ? ? ? ? ? ? first ? ?].
      destruct first; repeat split; now left.
    + destruct (updateGameStateByLastMove_outcome posX posY (this w))
        as [Hgoes | Hends]; [right; right; left | right; right; right];
        assumption.
    + left. apply playerMakeMove_bookkeeping.
    + left. rewrite swapTurns_other. repeat split.
    + left. rewrite swapFirstTurn_other. repeat split.
Qed.

(** X11: PREPARING is never seen between calls: no call leaves a game in
    state PREPARING unless it found it there, so no sequence of calls on
    a constructed game ends in PREPARING. *)
Theorem PREPARING_is_never_observed (calls : list Call) (w : World) :
  state (this w) <> GameState.PREPARING ->
  state (this (run calls w)) <> GameState.PREPARING.
Proof.
  apply (run_invariant (fun g => state g <> GameState.PREPARING)).
  clear calls w. intros c w Hw.
  destruct (exec_state_total_winner c w)
    as [(Hs & _) | [(Hs & _) | [(Hs & _) | (Hs & _)]]];
    rewrite Hs; [exact Hw | discriminate ..].
Qed.

(** X12: totalGamesPlayed never becomes negative: every call leaves it
    as it is, adds 1 to it or sets it to 0. *)
Theorem totalGamesPlayed_stays_non_negative (calls : list Call)
        (w : World) :
  0 <= totalGamesPlayed (this w) ->
  0 <= totalGamesPlayed (this (run calls w)).
Proof.
  apply (run_invariant (fun g => 0 <= totalGamesPlayed g)).
  clear calls w. intros c w Hw.
  destruct (exec_state_total_winner c w)
    as [(_ & Ht & _) | [(_ & [Ht | Ht] & _) | [(_ & Ht & _) | (_ & Ht & _)]]];
    rewrite Ht; lia.
Qed.

(** X13: the game winner is never Role.P1 or Role.P2: in every state
    reached from one where winner is Role.NONE or a Player, as in a
    constructed game, getGameWinner returns Role.NONE or a Player. *)
Theorem winner_is_never_a_player_role (calls : list Call) (w : World) :
  winner_is_none_or_player (this w) ->
  winner_is_none_or_player (this (run calls w))
  /\ getGameWinner (this (run calls w)) <> RoleValue Role.P1
  /\ getGameWinner (this (run calls w)) <> RoleValue Role.P2.
Proof.
  intros Hw.
  assert (Hinv : winner_is_none_or_player (this (run calls w))).
  { revert Hw. apply (run_invariant winner_is_none_or_player).
    clear calls w. intros c w Hw.
    destruct (exec_state_total_winner c w)
      as [(_ & _ & Hk) | [(_ & _ & Hk) | [(_ & _ & Hk) | (_ & _ & Hk)]]].
    - unfold winner_is_none_or_player. now rewrite Hk.
    - now left.
    - unfold winner_is_none_or_player. now rewrite Hk.
    - exact Hk. }
  split; [exact Hinv |].
  unfold getGameWinner.
  destruct Hinv as [Hnone | [p Hplayer]].
  - rewrite Hnone. split; discriminate.
  - rewrite Hplayer. split; discriminate.
Qed.

Lemma lifecycle_call_configuration (c : Call) (w : World) :
  is_configuration_call c = false ->
  configuration (this (exec c w)) = configuration (this w).
Proof.
  intros Hc. unfold configuration.
  destruct c as [prop arg | x y | len | b | num | b | num | | p | | |
                 posX posY | x y | | ];
    try discriminate Hc; cbn [exec with_this this].
  - rewrite readyGame_eq.
    destruct (firstTurnPlayer (this w)); cbn;
      now rewrite getSize_resetBoard.
  - unfold resetMatch. cbv zeta. rewrite readyGame_eq.
    destruct p; cbn; now rewrite getSize_resetBoard.
  - reflexivity.
  - unfold nextGame. rewrite swapFirstTurn_other, readyGame_eq. cbn [snd].
    destruct (this w) as [? ? ? ? ? ? ? ? ? ? first ? ?].
    destruct first; cbn; now rewrite getSize_resetBoard.
  - destruct (checkWinner posX posY (this w)) as [line |] eqn:Hline.
    + rewrite (updateGameStateByLastMove_win _ _ _ _ Hline).
      destruct (this w) as [? ? ? ? ? ? ? mover ? ? ? ? ?].
      destruct mover; reflexivity.
    + destruct (checkValidMoves (this w)) eqn:Hmoves.
      * now rewrite (updateGameStateByLastMove_continue _ _ _ Hline Hmoves).
      * now rewrite (updateGameStateByLastMove_draw _ _ _ Hline Hmoves).
  - unfold playerMakeMove.
    destruct (negb _); [reflexivity |].
    pose proof (getSize_placeMark
                  x y (role (deref (currentPlayer (this w)) (this w)))
                  (board (this w))) as Hsize.
    destruct (placeMark x y (role (deref (currentPlayer (this w)) (this w)))
                        (board (this w))) as [placed b'].
    cbn in Hsize.
    destruct (this w) as [? ? ? ? ? ? ? mover ? ? ? ? ?].
    destruct placed, mover; cbn in *; now rewrite Hsize.
  - now rewrite swapTurns_other.
  - now rewrite swapFirstTurn_other.
Qed.

(** X14: the configuration changes only through a configuration setter:
    readyGame, resetMatch, startGame, nextGame, playerMakeMove,
    updateGameStateByLastMove and the two swaps leave winLength,
    isLimitedPieces, numPieces, isFifoOrder and the size of the board
    as they are, and so does every sequence of such calls; a
    configuration call in turn leaves players, turns, outcome,
    totalGamesPlayed and state as they are. *)
Theorem configuration_and_bookkeeping_are_separate (w : World) :
  (forall calls : list Call,
      forallb (fun c => negb (is_configuration_call c)) calls = true ->
      configuration (this (run calls w)) = configuration (this w))
  /\ (forall c : Call,
         is_configuration_call c = true ->
         bookkeeping (this (exec c w)) = bookkeeping (this w)).
Proof.
  split.
  - intros calls. revert w.
    induction calls as [| c calls IH]; intros w Hcalls; [reflexivity |].
    cbn in Hcalls. apply andb_true_iff in Hcalls as [Hc Hrest].
    apply negb_true_iff in Hc.
    cbn [run fold_left].
    change (configuration (this (run calls (exec c w)))
            = configuration (this w)).
    rewrite (IH _ Hrest). now apply lifecycle_call_configuration.
  - intros c Hc. now apply configuration_call_bookkeeping.
Qed.

(** ** Scores *)

Lemma inject_Z_succ (n : Z) : (inject_Z (n + 1) == inject_Z n + 1)%Q.
Proof. rewrite inject_Z_plus. reflexivity. Qed.

Lemma exec_tally (c : Call) (w : World) :
  tally_matches_games (this w) -> tally_matches_games (this (exec c w)).
Proof.
  unfold tally_matches_games. intros Hw.
  destruct (is_configuration_call c) eqn:Hc.
  - pose proof (configuration_call_bookkeeping c w Hc) as Hsame.
    unfold bookkeeping in Hsame.
    injection Hsame as Hp1 Hp2 _ _ _ _ Htotal _.
    now rewrite Hp1, Hp2, Htotal.
  - destruct c as [prop arg | x y | len | b | num | b | num | | p | | |
                   posX posY | x y | | ];
      try discriminate Hc; cbn [exec with_this this].
    + rewrite readyGame_eq.
      destruct (firstTurnPlayer (this w)); cbn;
        now rewrite score_resetPlayerMoveHistory.
    + unfold resetMatch. cbv zeta. rewrite readyGame_eq.
      destruct p; cbn;
        rewrite ?score_resetPlayerMoveHistory, !score_resetScore;
        reflexivity.
    + exact Hw.
    + unfold nextGame. rewrite swapFirstTurn_other, readyGame_eq. cbn [snd].
      destruct (this w) as [? ? ? ? ? ? ? ? ? ? first ? ?].
      destruct first; cbn in *; now rewrite score_resetPlayerMoveHistory.
    + destruct (checkWinner posX posY (this w)) as [line |] eqn:Hline.
      * rewrite (updateGameStateByLastMove_win _ _ _ _ Hline).
        destruct (this w) as [? ? ? ? ? ? ? mover ? ? ? ? ?].
        destruct mover; cbn in *;
          rewrite score_addScore, inject_Z_succ, <- Hw; ring.
      * destruct (checkValidMoves (this w)) eqn:Hmoves.
        -- now rewrite (updateGameStateByLastMove_continue _ _ _ Hline Hmoves).
        -- rewrite (updateGameStateByLastMove_draw _ _ _ Hline Hmoves). cbn.
           rewrite !score_addScore, inject_Z_succ, <- Hw. ring.
    + unfold playerMakeMove.
      destruct (negb _); [exact Hw |].
      destruct (placeMark x y (role (deref (currentPlayer (this w)) (this w)))
                          (board (this w))) as [placed b'].
      destruct (this w) as [? ? ? ? ? ? ? mover ? ? ? ? ?].
      destruct placed, mover; cbn in *;
        rewrite ?score_updatePlayerMove; exact Hw.
    + now rewrite swapTurns_other.
    + now rewrite swapFirstTurn_other.
Qed.

(** X15: within a match every finished game hands out exactly one point:
    a constructed game has player1.score + player2.score =
    totalGamesPlayed, and every call keeps that equation, a win adding
    1 to one score and a draw 0.5 to both. *)
Theorem scores_add_up_to_games_played
        (boardSizeX boardSizeY winLength numPieces : Z) (isFifoOrder : bool)
        (calls : list Call) :
  (forall global,
      tally_matches_games
        (this (run calls
                   (mkWorld (constructor boardSizeX boardSizeY winLength
                                         numPieces isFifoOrder)
                            global))))
  /\ (forall w : World,
         tally_matches_games (this w) ->
         tally_matches_games (this (run calls w))).
Proof.
  assert (Hrun : forall w : World,
             tally_matches_games (this w) ->
             tally_matches_games (this (run calls w))).
  { apply (run_invariant tally_matches_games). exact exec_tally. }
  split; [| exact Hrun].
  intros global. apply Hrun. unfold tally_matches_games. cbn.
  rewrite !score_newPlayer. reflexivity.
Qed.

(** X16: getMatchLeadingPlayer returns the role of the player with the
    strictly higher score and Role.NONE when the scores are equal. *)
Theorem getMatchLeadingPlayer_spec (g : Game) :
  ((score (player2 g) < score (player1 g))%Q ->
   getMatchLeadingPlayer g = role (player1 g))
  /\ ((score (player1 g) < score (player2 g))%Q ->
      getMatchLeadingPlayer g = role (player2 g))
  /\ ((score (player1 g) == score (player2 g))%Q ->
      getMatchLeadingPlayer g = Role.NONE).
Proof.
  unfold getMatchLeadingPlayer, score_gt.
  repeat split.
  - intros Hlead. apply Qlt_not_le in Hlead.
    destruct (Qle_bool (score (player1 g)) (score (player2 g))) eqn:Hle;
      [| reflexivity].
    apply Qle_bool_iff in Hle. contradiction.
  - intros Hlead.
    assert (Hle : Qle_bool (score (player1 g)) (score (player2 g)) = true).
    { apply Qle_bool_iff. now apply Qlt_le_weak. }
    rewrite Hle. cbn.
    apply Qlt_not_le in Hlead.
    destruct (Qle_bool (score (player2 g)) (score (player1 g))) eqn:Hge;
      [| reflexivity].
    apply Qle_bool_iff in Hge. contradiction.
  - intros Htie.
    assert (H12 : Qle_bool (score (player1 g)) (score (player2 g)) = true).
    { apply Qle_bool_iff. rewrite Htie. apply Qle_refl. }
    assert (H21 : Qle_bool (score (player2 g)) (score (player1 g)) = true).
    { apply Qle_bool_iff. rewrite Htie. apply Qle_refl. }
    rewrite H12, H21. reflexivity.
Qed.

(** ** The gate between games *)

(** X17: updateNumPiecesEachPlayer has a guard of its own, the state
    alone: while the game is ONGOING it changes nothing; in every other
    state it assigns numPieces := num without a bound, also between the
    games of a match, when updateGameConfig refuses the same update. *)
Theorem updateNumPiecesEachPlayer_guard (arg : Arg) (w : World) :
  let g := this w in
  let num := arg_num arg in
  (state g = GameState.ONGOING -> updateNumPiecesEachPlayer num g = g)
  /\ (state g <> GameState.ONGOING ->
      updateNumPiecesEachPlayer num g = set_numPieces num g)
  /\ (state g <> GameState.ONGOING -> 0 < totalGamesPlayed g ->
      updateGameConfig (Sel GameProp.NUM_PIECES) arg w = (Normal false, w)
      /\ getNumPiecesEachPlayer (updateNumPiecesEachPlayer num g) = num).
Proof.
  cbv zeta. unfold updateNumPiecesEachPlayer. split; [| split].
  - intros Hstate. apply GameState_eqb_eq in Hstate. now rewrite Hstate.
  - intros Hstate. apply GameState_eqb_neq in Hstate. now rewrite Hstate.
  - intros Hstate Hplayed. split.
    + unfold updateGameConfig.
      replace (totalGamesPlayed (this w) <=? 0) with false
        by (symmetry; apply Z.leb_gt; assumption).
      now rewrite andb_false_r.
    + apply GameState_eqb_neq in Hstate. now rewrite Hstate.
Qed.

Lemma exec_keeps_games_played (c : Call) (w : World) :
  is_resetMatch c = false ->
  totalGamesPlayed (this (exec c w)) = totalGamesPlayed (this w)
  \/ totalGamesPlayed (this (exec c w)) = totalGamesPlayed (this w) + 1.
Proof.
  intros Hreset.
  destruct (is_configuration_call c) eqn:Hc.
  - left. pose proof (configuration_call_bookkeeping c w Hc) as Hsame.
    unfold bookkeeping in Hsame.
    now injection Hsame as _ _ _ _ _ _ Htotal _.
  - destruct c as [prop arg | x y | len | b | num | b | num | | p | | |
                   posX posY | x y | | ];
      try discriminate Hc; try discriminate Hreset;
      cbn [exec with_this this].
    + left. rewrite readyGame_eq.
      destruct (firstTurnPlayer (this w)); reflexivity.
    + now left.
    + left. unfold nextGame. rewrite swapFirstTurn_other, readyGame_eq.
      cbn [snd].
      destruct (this w) as [? ? ? ? ? ? ? ? ? ? first ? ?].
      destruct first; reflexivity.
    + destruct (updateGameStateByLastMove_outcome posX posY (this w))
        as [(_ & Hsame & _) | (_ & Hgrown & _)]; auto.
    + left. apply playerMakeMove_bookkeeping.
    + left. now rewrite swapTurns_other.
    + left. now rewrite swapFirstTurn_other.
Qed.

(** X18: once a game of the match has been finished the configuration
    stays locked until resetMatch: a sequence of calls without resetMatch
    never lowers totalGamesPlayed, so after it totalGamesPlayed is still
    positive and every updateGameConfig call is refused without a
    change. *)
Theorem configuration_stays_locked (calls : list Call) (w : World) :
  forallb (fun c => negb (is_resetMatch c)) calls = true ->
  0 < totalGamesPlayed (this w) ->
  totalGamesPlayed (this w) <= totalGamesPlayed (this (run calls w))
  /\ (forall prop arg,
         updateGameConfig prop arg (run calls w)
         = (Normal false, run calls w)).
Proof.
  intros Hcalls Hplayed.
  assert (Hgrows : totalGamesPlayed (this w)
                   <= totalGamesPlayed (this (run calls w))).
  { clear Hplayed. revert w Hcalls.
    induction calls as [| c calls IH]; intros w Hcalls; [cbn; lia |].
    cbn in Hcalls. apply andb_true_iff in Hcalls as [Hc Hrest].
    apply negb_true_iff in Hc.
    cbn [run fold_left].
    change (totalGamesPlayed (this w)
            <= totalGamesPlayed (this (run calls (exec c w)))).
    specialize (IH (exec c w) Hrest).
    destruct (exec_keeps_games_played c w Hc) as [Hsame | Hgrown]; lia. }
  split; [exact Hgrows |].
  intros prop arg. unfold updateGameConfig.
  replace (totalGamesPlayed (this (run calls w)) <=? 0) with false
    by (symmetry; apply Z.leb_gt; lia).
  now rewrite andb_false_r.
Qed.

End LifeCycleProperties.

(** * The further properties at work on the collaborators *)

Section LifeCycleOnTheCollaborators.

Import Collaborators.
Import Scenarios.

(** Both sides evaluated, a fact of the run closes the goal. *)
Ltac by_evaluating H := vm_compute in H |- *; exact H.

Ltac split_conjunctions :=
  repeat match goal with |- _ /\ _ => split end.

Lemma plain_score_newPlayer (n s : string) (r : Role.t) :
  (score (newPlayer n s r : PlainPlayer) == 0)%Q.
Proof. apply Qeq_refl. Qed.

Lemma plain_score_resetScore (p : PlainPlayer) :
  (score (resetScore p) == 0)%Q.
Proof. apply Qeq_refl. Qed.

Lemma plain_score_updatePlayerMove (x y : Z) (p : PlainPlayer) :
  (score (updatePlayerMove x y p) == score p)%Q.
Proof. apply Qeq_refl. Qed.

(** A game in play has the gate closed, a fresh game has it open. *)
Lemma witness_X1_gate :
  (isDuringMatch oneMoveIn = true
   /\ updateGameConfig (Sel GameProp.WIN_LENGTH) (mkArg 0 0 2 false 0 false)
                       (mkWorld oneMoveIn Undeclared)
      = (Normal false, mkWorld oneMoveIn Undeclared))
  /\ (isDuringMatch (this fresh3x3) = false
      /\ fst (updateGameConfig (Sel GameProp.SIZE)
                               (mkArg 4 4 0 false 0 false) fresh3x3)
         = Normal true).
Proof.
  destruct (isDuringMatch_is_the_gate (mkArg 0 0 2 false 0 false)
                                      (mkWorld oneMoveIn Undeclared))
    as (_ & Hclosed & _).
  destruct (isDuringMatch_is_the_gate (mkArg 4 4 0 false 0 false) fresh3x3)
    as (_ & _ & Hopen).
  assert (Hduring : isDuringMatch oneMoveIn = true)
    by (vm_compute; reflexivity).
  assert (Hfresh : isDuringMatch (this fresh3x3) = false)
    by (vm_compute; reflexivity).
  exact (conj (conj Hduring (Hclosed Hduring (Sel GameProp.WIN_LENGTH)))
              (conj Hfresh (Hopen Hfresh))).
Defined.

(** A fresh game switches limited pieces on and FIFO order off. *)
Lemma witness_X2_flags :
  gate_open (this fresh3x3)
  /\ getIsLimitedPieces (this fresh3x3) = false
  /\ getIsLimitedPieces
       (this (snd (updateGameConfig (Sel GameProp.IS_LIMITED_PIECES)
                                    (mkArg 0 0 0 true 0 false) fresh3x3)))
     = true
  /\ getIsFifoOrder
       (this (snd (updateGameConfig (Sel GameProp.IS_FIFO_ORDER)
                                    (mkArg 0 0 0 true 0 false) fresh3x3)))
     = false.
Proof.
  assert (Hopen : gate_open (this fresh3x3)).
  { split; [discriminate | vm_compute; discriminate]. }
  destruct (flag_updates_round_trip (mkArg 0 0 0 true 0 false) fresh3x3 Hopen)
    as ((_ & Hlimited & _) & (_ & Hfifo & _)).
  exact (conj Hopen (conj eq_refl (conj Hlimited Hfifo))).
Defined.

(** A fresh 3x3 game accepts winLength 0. *)
Lemma witness_X3_zero_length :
  gate_open (this fresh3x3)
  /\ fst (updateGameConfig (Sel GameProp.WIN_LENGTH)
                           (mkArg 0 0 0 false 0 false) fresh3x3)
     = Normal true
  /\ getWinningLineLength
       (this (snd (updateGameConfig (Sel GameProp.WIN_LENGTH)
                                    (mkArg 0 0 0 false 0 false) fresh3x3)))
     = 0.
Proof.
  assert (Hopen : gate_open (this fresh3x3)).
  { split; [discriminate | vm_compute; discriminate]. }
  assert (Hlen : arg_len (mkArg 0 0 0 false 0 false) <= 0)
    by (vm_compute; discriminate).
  assert (Hsize : 0 <= Size.x (getSize (board (this fresh3x3)))
                  \/ 0 <= Size.y (getSize (board (this fresh3x3))))
    by (left; vm_compute; discriminate).
  destruct (winLength_update_has_no_lower_bound
              (mkArg 0 0 0 false 0 false) fresh3x3 Hopen Hlen Hsize)
    as [Htrue Hzero].
  exact (conj Hopen (conj Htrue Hzero)).
Defined.

(** Scenario D: after scenario A, Player 2 moves first in the next
    game, Player 1 keeps the point and the history of the game before. *)
Lemma witness_X7_scenarioD :
  firstTurnPlayer scenarioA_finished = RefPlayer1
  /\ firstTurnPlayer betweenGames = RefPlayer2
  /\ currentPlayer betweenGames = RefPlayer2
  /\ state betweenGames = GameState.READY
  /\ moveHistory (player2 betweenGames) = []
  /\ player1 betweenGames = player1 scenarioA_finished
  /\ totalGamesPlayed betweenGames = 1.
Proof.
  destruct (nextGame_alternates_first_turn
              plain_score_resetPlayerMoveHistory
              plain_moveHistory_resetPlayerMoveHistory scenarioA_finished)
    as (Hfirst & _ & Hcurrent & Hstate & _ & _ & Hcleared & Hkept & _ & _
        & Htotal).
  split_conjunctions.
  - vm_compute. reflexivity.
  - by_evaluating Hfirst.
  - by_evaluating Hcurrent.
  - by_evaluating Hstate.
  - by_evaluating Hcleared.
  - by_evaluating Hkept.
  - by_evaluating Htotal.
Defined.

(** After scenario A, a new match with Player 2 to move first. *)
Lemma witness_X8_new_match :
  (score (player1 scenarioA_finished) == 1)%Q
  /\ totalGamesPlayed scenarioA_finished = 1
  /\ (score (player1 (resetMatch RefPlayer2 scenarioA_finished)) == 0)%Q
  /\ totalGamesPlayed (resetMatch RefPlayer2 scenarioA_finished) = 0
  /\ currentPlayer (resetMatch RefPlayer2 scenarioA_finished) = RefPlayer2
  /\ isDuringMatch (resetMatch RefPlayer2 scenarioA_finished) = false
  /\ getMatchLeadingPlayer (resetMatch RefPlayer2 scenarioA_finished)
     = Role.NONE.
Proof.
  destruct (resetMatch_starts_a_new_match
              plain_score_resetScore plain_score_resetPlayerMoveHistory
              RefPlayer2 scenarioA_finished)
    as (Hp1 & _ & Htotal & _ & Hcurrent & _ & _ & _ & _ & Hgate & Hleader).
  split_conjunctions.
  - vm_compute. reflexivity.
  - vm_compute. reflexivity.
  - by_evaluating Hp1.
  - by_evaluating Htotal.
  - by_evaluating Hcurrent.
  - by_evaluating Hgate.
  - by_evaluating Hleader.
Defined.

(** Scenario A: the move that wins closes the gate; the first move of a
    game leaves it closed. *)
Lemma witness_X10_scenarioA :
  0 <= totalGamesPlayed scenarioA
  /\ state scenarioA_finished = GameState.FINISHED
  /\ totalGamesPlayed scenarioA_finished = totalGamesPlayed scenarioA + 1
  /\ isDuringMatch scenarioA_finished = true.
Proof.
  assert (Hplayed : 0 <= totalGamesPlayed scenarioA)
    by (vm_compute; discriminate).
  destruct (outcome_resolution_closes_the_gate 0 2 scenarioA Hplayed)
    as [_ Hgate].
  destruct (outcome_resolution_closes_the_gate 0 2 scenarioA Hplayed)
    as [[[Hgoes _] | [Hstate Hgrown]] _].
  - vm_compute in Hgoes. discriminate Hgoes.
  - split_conjunctions.
    + exact Hplayed.
    + by_evaluating Hstate.
    + by_evaluating Hgrown.
    + by_evaluating Hgate.
Defined.

(** Scenario A, call by call, from a fresh game. *)
Lemma witness_X11_scenarioA :
  state (this fresh3x3) <> GameState.PREPARING
  /\ state (this (run scenarioA_played fresh3x3)) <> GameState.PREPARING.
Proof.
  assert (Hfresh : state (this fresh3x3) <> GameState.PREPARING)
    by discriminate.
  exact (conj Hfresh
              (PREPARING_is_never_observed scenarioA_played fresh3x3 Hfresh)).
Defined.

Lemma witness_X12_scenarioA :
  0 <= totalGamesPlayed (this fresh3x3)
  /\ 0 <= totalGamesPlayed (this (run scenarioA_played fresh3x3)).
Proof.
  assert (Hfresh : 0 <= totalGamesPlayed (this fresh3x3))
    by (vm_compute; discriminate).
  exact (conj Hfresh
              (totalGamesPlayed_stays_non_negative
                 scenarioA_played fresh3x3 Hfresh)).
Defined.

Lemma witness_X13_scenarioA :
  winner_is_none_or_player (this fresh3x3)
  /\ getGameWinner (this (run scenarioA_played fresh3x3))
     = PlayerValue RefPlayer1
  /\ getGameWinner (this (run scenarioA_played fresh3x3))
     <> RoleValue Role.P1.
Proof.
  assert (Hfresh : winner_is_none_or_player (this fresh3x3))
    by (left; reflexivity).
  destruct (winner_is_never_a_player_role scenarioA_played fresh3x3 Hfresh)
    as (_ & Hp1 & _).
  assert (Hwinner : getGameWinner (this (run scenarioA_played fresh3x3))
                    = PlayerValue RefPlayer1)
    by (vm_compute; reflexivity).
  exact (conj Hfresh (conj Hwinner Hp1)).
Defined.

(** Scenario A leaves the configuration of the fresh game; a SIZE update
    leaves its bookkeeping. *)
Lemma witness_X14_scenarioA :
  (only_lifecycle_calls scenarioA_played = true
   /\ configuration (this (run scenarioA_played fresh3x3))
      = configuration (this fresh3x3))
  /\ bookkeeping
       (this (exec (Call_updateGameConfig (Sel GameProp.SIZE)
                                          (mkArg 4 5 0 false 0 false))
                   fresh3x3))
     = bookkeeping (this fresh3x3).
Proof.
  assert (Hcalls : only_lifecycle_calls scenarioA_played = true)
    by (vm_compute; reflexivity).
  destruct (configuration_and_bookkeeping_are_separate
              grid_getSize_resetBoard grid_getSize_placeMark fresh3x3)
    as [Hconfiguration Hbookkeeping].
  exact (conj (conj Hcalls (Hconfiguration scenarioA_played Hcalls))
              (Hbookkeeping
                 (Call_updateGameConfig (Sel GameProp.SIZE)
                                        (mkArg 4 5 0 false 0 false))
                 eq_refl)).
Defined.

(** Scenario A: one game played, one point handed out. *)
Lemma witness_X15_scenarioA :
  tally_matches_games (this (run scenarioA_played fresh3x3))
  /\ totalGamesPlayed (this (run scenarioA_played fresh3x3)) = 1.
Proof.
  destruct (scores_add_up_to_games_played
              plain_score_newPlayer plain_score_resetScore
              plain_score_addScore plain_score_resetPlayerMoveHistory
              plain_score_updatePlayerMove 3 3 3 3 true scenarioA_played)
    as [Hconstructed _].
  assert (Hone : totalGamesPlayed (this (run scenarioA_played fresh3x3)) = 1)
    by (vm_compute; reflexivity).
  exact (conj (Hconstructed Undeclared) Hone).
Defined.

(** After scenario A Player 1 leads; after the draw of scenario B nobody
    does. *)
Lemma witness_X16_leaders :
  ((score (player2 scenarioA_finished) < score (player1 scenarioA_finished))%Q
   /\ getMatchLeadingPlayer scenarioA_finished = Role.P1)
  /\ ((score (player1 (updateGameStateByLastMove 2 2 scenarioB))
       == score (player2 (updateGameStateByLastMove 2 2 scenarioB)))%Q
      /\ getMatchLeadingPlayer (updateGameStateByLastMove 2 2 scenarioB)
         = Role.NONE).
Proof.
  assert (Hlead : (score (player2 scenarioA_finished)
                   < score (player1 scenarioA_finished))%Q)
    by (vm_compute; reflexivity).
  assert (Htie : (score (player1 (updateGameStateByLastMove 2 2 scenarioB))
                  == score (player2 (updateGameStateByLastMove 2 2 scenarioB)))%Q)
    by (vm_compute; reflexivity).
  destruct (getMatchLeadingPlayer_spec scenarioA_finished) as (Hfirst & _ & _).
  destruct (getMatchLeadingPlayer_spec
              (updateGameStateByLastMove 2 2 scenarioB)) as (_ & _ & Hnone).
  exact (conj (conj Hlead (Hfirst Hlead)) (conj Htie (Hnone Htie))).
Defined.

(** Between two games updateGameConfig refuses NUM_PIECES, and the direct
    call sets 100 pieces on a board of 9 cells. *)
Lemma witness_X17_between_games :
  state betweenGames <> GameState.ONGOING
  /\ 0 < totalGamesPlayed betweenGames
  /\ updateGameConfig (Sel GameProp.NUM_PIECES) (mkArg 0 0 0 false 100 false)
                      (mkWorld betweenGames Undeclared)
     = (Normal false, mkWorld betweenGames Undeclared)
  /\ getNumPiecesEachPlayer (updateNumPiecesEachPlayer 100 betweenGames)
     = 100.
Proof.
  assert (Hstate : state betweenGames <> GameState.ONGOING)
    by (vm_compute; discriminate).
  assert (Hplayed : 0 < totalGamesPlayed betweenGames)
    by (vm_compute; reflexivity).
  destruct (updateNumPiecesEachPlayer_guard
              (mkArg 0 0 0 false 100 false) (mkWorld betweenGames Undeclared))
    as (_ & _ & Hbetween).
  destruct (Hbetween Hstate Hplayed) as [Hrefused Hset].
  exact (conj Hstate (conj Hplayed (conj Hrefused Hset))).
Defined.

(** After scenario A the second game is started and opened: a SIZE
    update is still refused. *)
Lemma witness_X18_second_game :
  no_resetMatch into_the_second_game = true
  /\ 0 < totalGamesPlayed scenarioA_finished
  /\ updateGameConfig (Sel GameProp.SIZE) (mkArg 4 4 0 false 0 false)
                      (run into_the_second_game
                           (mkWorld scenarioA_finished Undeclared))
     = (Normal false,
        run into_the_second_game (mkWorld scenarioA_finished Undeclared)).
Proof.
  assert (Hcalls : no_resetMatch into_the_second_game = true)
    by (vm_compute; reflexivity).
  assert (Hplayed : 0 < totalGamesPlayed scenarioA_finished)
    by (vm_compute; reflexivity).
  destruct (configuration_stays_locked
              into_the_second_game (mkWorld scenarioA_finished Undeclared)
              Hcalls Hplayed) as [_ Hlocked].
  exact (conj Hcalls
           (conj Hplayed
              (Hlocked (Sel GameProp.SIZE) (mkArg 4 4 0 false 0 false)))).
Defined.

End LifeCycleOnTheCollaborators.
